(** * Result normalisation, connection store, language-server supervisor
      and message interceptor of vscode-sqls-next, embedded in Rocq.

    Source files embedded:
    - [src/resultParser.ts]                  : [ResultParser]
    - the ASCII-table result parser (unnamed) : [AsciiResultParser]
    - [ConnectionConfigManager] (unnamed)     : [ConfigStore]
    - [src/lspClient.ts] ([SqlsClient])       : [Supervisor]
    - [src/resultPanel.ts] ([MessageInterceptor]) : [Interceptor]
    - [src/lspClient.ts] (commands, middleware)  : [LspClient]
    - [SqlsExecuteCommandMiddleware] (unnamed)   : [CommandMiddleware]
    - connection selection (unnamed)            : [ConnectionSelect]
    - [src/resultPanel.ts] (CSV export, panel)  : [CsvExport], [Panel]
    - [src/resultPanel.ts] (message helpers)    : [MessageHelpers] *)

From Stdlib Require Import String Ascii List ZArith Bool Lia.
From Stdlib Require Import Numbers.DecimalString.
Import ListNotations.
Open Scope string_scope.
Set Warnings "-register-all".

(** ** JavaScript values *)
Module JS.

(** A JavaScript value, as the parsers receive it.  Numbers are integers
    (NaN and fractions play no role in the code paths below); strings are
    sequences of ASCII code units; an object is the list of its own
    properties in insertion order.  Values are trees (no cycles, no BigInt),
    which is what a JSON-RPC reply can contain. *)
Inductive value : Type :=
| Undefined
| Null
| Bool (b : bool)
| Num (z : Z)
| Str (s : string)
| Arr (l : list value)
| Obj (fields : list (string * value)).

(** What a function of the source does: return a value or throw. *)
Inductive outcome : Type :=
| Ret (v : value)
| Throw (msg : string).

(** JavaScript truthiness ([if (v)], [v && ...]). *)
Definition truthy (v : value) : bool :=
  match v with
  | Undefined | Null => false
  | Bool b => b
  | Num z => negb (Z.eqb z 0)
  | Str s => negb (String.eqb s "")
  | Arr _ | Obj _ => true
  end.

(** [typeof v]. *)
Definition typeof (v : value) : string :=
  match v with
  | Undefined => "undefined"
  | Null => "object"
  | Bool _ => "boolean"
  | Num _ => "number"
  | Str _ => "string"
  | Arr _ | Obj _ => "object"
  end.

(** [Array.isArray v]. *)
Definition isArray (v : value) : bool :=
  match v with Arr _ => true | _ => false end.

Definition Z_to_string (z : Z) : string :=
  NilEmpty.string_of_int (Z.to_int z).

Definition nat_to_string (n : nat) : string := Z_to_string (Z.of_nat n).

Fixpoint assoc (k : string) (fs : list (string * value)) : option value :=
  match fs with
  | [] => None
  | (k', x) :: r => if String.eqb k' k then Some x else assoc k r
  end.

(** Property read [v.k] on a value that is not [null]/[undefined] (the
    callers below guard this); a missing property reads [undefined]. *)
Definition get (v : value) (k : string) : value :=
  match v with
  | Obj fs => match assoc k fs with Some x => x | None => Undefined end
  | Arr l => if String.eqb k "length" then Num (Z.of_nat (List.length l)) else Undefined
  | Str s => if String.eqb k "length" then Num (Z.of_nat (String.length s)) else Undefined
  | _ => Undefined
  end.

(** [k in v] for an object [v] (own properties; the keys tested by the
    code are not on [Object.prototype]). *)
Definition has_prop (k : string) (v : value) : bool :=
  match v with
  | Obj fs => match assoc k fs with Some _ => true | None => false end
  | Arr l => String.eqb k "length"
  | _ => false
  end.

(** Indexed read [v[i]]: a [TypeError] ([None]) on [null]/[undefined]. *)
Definition index (v : value) (i : nat) : option value :=
  match v with
  | Undefined | Null => None
  | Arr l => Some (nth i l Undefined)
  | Str s => Some (match String.get i s with Some c => Str (String c "") | None => Undefined end)
  | Obj fs => Some (get (Obj fs) (nat_to_string i))
  | Bool _ | Num _ => Some Undefined
  end.

(** [Object.keys v]: a [TypeError] ([None]) on [null]/[undefined].  Keys
    are listed in insertion order. *)
Definition object_keys (v : value) : option (list string) :=
  match v with
  | Undefined | Null => None
  | Obj fs => Some (map fst fs)
  | Arr l => Some (map nat_to_string (seq 0 (List.length l)))
  | Str s => Some (map nat_to_string (seq 0 (String.length s)))
  | Bool _ | Num _ => Some []
  end.

(** Property write [o[k] = x]: an existing key keeps its place. *)
Fixpoint obj_set (k : string) (x : value) (fs : list (string * value))
  : list (string * value) :=
  match fs with
  | [] => [(k, x)]
  | (k', y) :: r => if String.eqb k' k then (k, x) :: r else (k', y) :: obj_set k x r
  end.

(** Whether an object used as a prototype still lets a [__proto__] write
    reach the [Object.prototype.__proto__] setter: an array does, and so
    does a plain object unless an own [__proto__] property shadows it. *)
Definition keeps_proto_setter (v : value) : bool :=
  match v with
  | Obj fs => match assoc "__proto__" fs with Some _ => false | None => true end
  | _ => true
  end.

(** Property write [o[k] = x] on an object created as [{}].  The object is
    given by its own properties and by whether the
    [Object.prototype.__proto__] setter is still inherited.  An own
    property is updated in place.  Otherwise a write of [__proto__] that
    reaches the setter creates no own property: a primitive is ignored,
    [null] or an object becomes the prototype (the setter stays reachable
    through an object that does not shadow it).  Any other write adds an
    own property at the end. *)
Definition obj_put (k : string) (x : value) (o : list (string * value) * bool)
  : list (string * value) * bool :=
  let (fs, setter) := o in
  match assoc k fs with
  | Some _ => (obj_set k x fs, setter)
  | None =>
      if String.eqb k "__proto__" && setter then
        match x with
        | Null => (fs, false)
        | Obj _ | Arr _ => (fs, keeps_proto_setter x)
        | _ => (fs, setter)
        end
      else (obj_set k x fs, setter)
  end.

(** [String(v)]. *)
Fixpoint to_string (v : value) : string :=
  match v with
  | Undefined => "undefined"
  | Null => "null"
  | Bool b => if b then "true" else "false"
  | Num z => Z_to_string z
  | Str s => s
  | Arr l =>
      String.concat ","
        ((fix go (l : list value) : list string :=
            match l with
            | [] => []
            | (Undefined | Null) :: r => "" :: go r
            | x :: r => to_string x :: go r
            end) l)
  | Obj _ => "[object Object]"
  end.

Definition hex_digit (n : nat) : ascii :=
  if Nat.ltb n 10 then ascii_of_nat (48 + n) else ascii_of_nat (87 + n).

(** The double-quote character. *)
Definition dq : string := String "034"%char "".

(** JSON string escaping of one code unit. *)
Definition escape_char (a : ascii) : string :=
  let n := nat_of_ascii a in
  if Nat.eqb n 34 then String "\" dq else
  if Nat.eqb n 92 then "\\" else
  if Nat.eqb n 8 then "\b" else
  if Nat.eqb n 12 then "\f" else
  if Nat.eqb n 10 then "\n" else
  if Nat.eqb n 13 then "\r" else
  if Nat.eqb n 9 then "\t" else
  if Nat.ltb n 32 then
    String "\" (String "u" (String "0" (String "0"
      (String (hex_digit (n / 16)) (String (hex_digit (n mod 16)) "")))))
  else String a "".

Fixpoint escape (s : string) : string :=
  match s with
  | EmptyString => ""
  | String a r => escape_char a ++ escape r
  end.

Definition quote (s : string) : string := dq ++ escape s ++ dq.

(** [JSON.stringify] on a value; [None] is the result [undefined]. *)
Fixpoint stringify_val (v : value) : option string :=
  match v with
  | Undefined => None
  | Null => Some "null"
  | Bool b => Some (if b then "true" else "false")
  | Num z => Some (Z_to_string z)
  | Str s => Some (quote s)
  | Arr l =>
      Some ("[" ++ String.concat ","
        ((fix go (l : list value) : list string :=
            match l with
            | [] => []
            | x :: r => match stringify_val x with Some t => t | None => "null" end :: go r
            end) l) ++ "]")
  | Obj fs =>
      Some ("{" ++ String.concat ","
        ((fix go (fs : list (string * value)) : list string :=
            match fs with
            | [] => []
            | (k, x) :: r =>
                match stringify_val x with
                | Some t => (quote k ++ ":" ++ t) :: go r
                | None => go r
                end
            end) fs) ++ "}")
  end.

Definition stringify (v : value) : value :=
  match stringify_val v with Some s => Str s | None => Undefined end.

End JS.

(** ** String operations of [String.prototype] used by the parsers *)
Module Text.

(** [s.startsWith(p)]. *)
Definition startsWith (s p : string) : bool := String.prefix p s.

(** [s.includes(p)]. *)
Fixpoint includes (s p : string) : bool :=
  String.prefix p s ||
  match s with
  | EmptyString => false
  | String _ r => includes r p
  end.

(** [s.split(c)] for a one-character separator [c]. *)
Fixpoint split (c : ascii) (s : string) : list string :=
  match s with
  | EmptyString => [""]
  | String a r =>
      let parts := split c r in
      if Ascii.eqb a c then "" :: parts
      else match parts with
           | p :: ps => String a p :: ps
           | [] => [String a ""]
           end
  end.

(** [xs.slice(1, -1)]. *)
Definition slice_1_m1 {A} (xs : list A) : list A :=
  match xs with
  | [] => []
  | _ :: r => removelast r
  end.

(** White space removed by [trim] (the ASCII ones). *)
Definition is_ws (a : ascii) : bool :=
  let n := nat_of_ascii a in
  (Nat.leb 9 n && Nat.leb n 13) || Nat.eqb n 32.

Fixpoint trim_start (s : string) : string :=
  match s with
  | EmptyString => ""
  | String a r => if is_ws a then trim_start r else s
  end.

Fixpoint trim_end (s : string) : string :=
  match s with
  | EmptyString => ""
  | String a r =>
      let r' := trim_end r in
      if String.eqb r' "" && is_ws a then "" else String a r'
  end.

(** [s.trim()]. *)
Definition trim (s : string) : string := trim_end (trim_start s).

Definition is_letter (a : ascii) : bool :=
  let n := nat_of_ascii a in
  (Nat.leb 65 n && Nat.leb n 90) || (Nat.leb 97 n && Nat.leb n 122).

(** [/[A-Za-z]/.test(s)]. *)
Fixpoint has_letter (s : string) : bool :=
  match s with
  | EmptyString => false
  | String a r => is_letter a || has_letter r
  end.

Definition nl : ascii := "010"%char.
Definition pipe : ascii := "|"%char.

End Text.

Import JS.

(** The result [{ columns: [{ name: "result" }], rows: [{ result: x }] }]
    built by both parsers when nothing better applies. *)
Definition single_result (x : value) : value :=
  Obj [("columns", Arr [Obj [("name", Str "result")]]);
       ("rows", Arr [Obj [("result", x)]])].

(** ** The ASCII-table parser (unnamed source, [parseAsciiTableResult],
       [parseResultSmart], [isAsciiTable]) *)
Module AsciiResultParser.
Import Text.

(** The header search: first line starting with [|] that holds a letter;
    returns it with the lines after it. *)
Fixpoint find_header (lines : list string) : option (string * list string) :=
  match lines with
  | [] => None
  | line :: rest =>
      if startsWith line "|" && has_letter line then Some (line, rest)
      else find_header rest
  end.

(** Per-cell normalisation: [<nil>], [NULL] and [""] become [null]. *)
Definition cell_value (v : string) : value :=
  if String.eqb v "<nil>" || String.eqb v "NULL" || String.eqb v "" then Null
  else Str v.

(** [const row = {}; columnNames.forEach((colName, index) => row[colName] = ...)]. *)
Definition build_row (columnNames values : list string) : value :=
  Obj (fst (fold_left (fun o cv => obj_put (fst cv) (cell_value (snd cv)) o)
              (combine columnNames values) ([], true))).

(** The data-row loop after the header line. *)
Fixpoint scan_rows (columnNames : list string) (lines : list string) : list value :=
  match lines with
  | [] => []
  | line :: rest =>
      if startsWith line "+" then scan_rows columnNames rest
      else if negb (startsWith line "|") then []
      else
        let values := map trim (slice_1_m1 (split pipe line)) in
        if Nat.eqb (List.length values) (List.length columnNames)
        then build_row columnNames values :: scan_rows columnNames rest
        else scan_rows columnNames rest
  end.

Definition parseAsciiTableResult (asciiTable : string) : outcome :=
  if String.eqb asciiTable "" then Throw "Invalid ASCII table input" else
  let lines := filter (fun line => negb (String.eqb (trim line) "")) (split nl asciiTable) in
  match find_header lines with
  | None => Throw "Could not find header line in ASCII table"
  | Some (headerLine, after) =>
      let columnNames :=
        filter (fun col => negb (String.eqb col ""))
          (map trim (slice_1_m1 (split pipe headerLine))) in
      match columnNames with
      | [] => Throw "No columns found in header"
      | _ =>
          let columns := map (fun name => Obj [("name", Str name)]) columnNames in
          let rows := scan_rows columnNames after in
          Ret (Obj [("columns", Arr columns); ("rows", Arr rows);
                    ("rowsAffected", Num (Z.of_nat (List.length rows)))])
      end
  end.

Definition parseResultSmart (result : value) : outcome :=
  if truthy result && String.eqb (typeof result) "object"
     && truthy (get result "columns") && truthy (get result "rows")
  then Ret result else
  match result with
  | Str s =>
      if includes s "+--" && includes s "|" then
        match parseAsciiTableResult s with
        | Ret r => Ret r
        | Throw _ => Ret (single_result (Str s))
        end
      else Ret (single_result (stringify result))
  | Arr l =>
      match l with
      | r0 :: _ =>
          if String.eqb (typeof r0) "object" then
            match object_keys r0 with
            | None => Throw "TypeError: Cannot convert undefined or null to object"
            | Some ks =>
                Ret (Obj [("columns", Arr (map (fun name => Obj [("name", Str name)]) ks));
                          ("rows", result);
                          ("rowsAffected", Num (Z.of_nat (List.length l)))])
            end
          else Ret (single_result (stringify result))
      | [] => Ret (single_result (stringify result))
      end
  | _ => Ret (single_result (stringify result))
  end.

Definition isAsciiTable (str : string) : bool :=
  let hasTableBorder := includes str "+--" || includes str "+==" in
  let hasColumnSeparator := includes str "|" in
  let hasNewlines := includes str (String nl "") in
  hasTableBorder && hasColumnSeparator && hasNewlines.

End AsciiResultParser.

(** ** [src/resultParser.ts]: [parseJsonResult], [parseResultSmart] *)
Module ResultParser.

(** [value === "null" || value === null || value === undefined
     || value === "<nil>"] becomes [null]. *)
Definition special_value (v : value) : value :=
  match v with
  | Null | Undefined => Null
  | Str s => if String.eqb s "null" || String.eqb s "<nil>" then Null else v
  | _ => v
  end.

(** The [columnNames.forEach((colName, index) => ...)] loop filling
    [rowObj] from [row]: [row[index]] throws on a [null]/[undefined] row. *)
Fixpoint fill_row (row : value) (cols : list value) (i : nat)
  (rowObj : list (string * value) * bool) : option (list (string * value)) :=
  match cols with
  | [] => Some (fst rowObj)
  | colName :: rest =>
      match index row i with
      | None => None
      | Some v => fill_row row rest (S i) (obj_put (to_string colName) (special_value v) rowObj)
      end
  end.

(** The body of [jsonData.rows.map(row => { ... })] for one [row]:
    [rowObj] starts as [{}]. *)
Definition convert_row (columnNames : list value) (row : value) : option value :=
  match fill_row row columnNames 0 ([], true) with
  | Some fs => Some (Obj fs)
  | None => None
  end.

Fixpoint convert_rows (columnNames : list value) (rows : list value) : option (list value) :=
  match rows with
  | [] => Some []
  | row :: rest =>
      match convert_row columnNames row, convert_rows columnNames rest with
      | Some r, Some rs => Some (r :: rs)
      | _, _ => None
      end
  end.

Definition parseJsonResult (jsonData : value) : outcome :=
  if negb (truthy jsonData) || negb (String.eqb (typeof jsonData) "object")
  then Throw "Invalid JSON data input" else
  if has_prop "rows_affected" jsonData
     && String.eqb (typeof (get jsonData "rows_affected")) "number" then
    Ret (Obj [("columns", Arr [Obj [("name", Str "rows_affected")]]);
              ("rows", Arr [Obj [("rows_affected", get jsonData "rows_affected")]]);
              ("rowsAffected", get jsonData "rows_affected")])
  else if has_prop "columns" jsonData && has_prop "rows" jsonData then
    match get jsonData "columns", get jsonData "rows" with
    | Arr columnNames, Arr rows =>
        match columnNames with
        | [] => Throw "No columns found in JSON data"
        | _ =>
            let columns := map (fun name => Obj [("name", Str (to_string name))]) columnNames in
            match convert_rows columnNames rows with
            | None => Throw "TypeError: Cannot read properties of null"
            | Some rows' =>
                Ret (Obj [("columns", Arr columns); ("rows", Arr rows');
                          ("rowsAffected", Num (Z.of_nat (List.length rows')))])
            end
        end
    | _, _ => Throw "JSON data must have 'columns' and 'rows' arrays"
    end
  else Throw "JSON data must have either 'columns' and 'rows' arrays, or 'rows_affected' number".

Section Smart.

(** [JSON.parse]: [None] is a [SyntaxError]. *)
Variable JSON_parse : string -> option value.

(** The fast path at the top of [parseResultSmart]; [None] when it does
    not return. *)
Definition fast_path (result : value) : option value :=
  if truthy result && String.eqb (typeof result) "object"
     && truthy (get result "columns") && truthy (get result "rows") then
    match get result "rows" with
    | Arr (r0 :: _) =>
        let converted :=
          if isArray r0 then
            match parseJsonResult result with
            | Ret q => Some q
            | Throw _ => None
            end
          else None in
        match converted with
        | Some q => Some q
        | None =>
            if String.eqb (typeof r0) "object" && negb (isArray r0)
            then Some result else None
        end
    | _ => None
    end
  else None.

Definition parseResultSmart (result : value) : outcome :=
  match fast_path result with
  | Some q => Ret q
  | None =>
      match result with
      | Str s =>
          match JSON_parse s with
          | Some jsonData =>
              match parseJsonResult jsonData with
              | Ret q => Ret q
              | Throw _ => Ret (single_result (Str s))
              end
          | None => Ret (single_result (Str s))
          end
      | Null => Ret (single_result (stringify result))
      | _ =>
          if String.eqb (typeof result) "object" then
            match parseJsonResult result with
            | Ret q => Ret q
            | Throw _ => Ret (single_result (stringify result))
            end
          else Ret (single_result (stringify result))
      end
  end.

End Smart.

End ResultParser.

(** ** [ConnectionConfigManager] (unnamed source) over [globalState] *)
Module ConfigStore.

Record ConnectionConfig : Type := mkConfig {
  alias : string;
  driver : string;
  dataSourceName : string
}.

(** What [globalState] holds under a key. *)
Inductive stored : Type :=
| VConfig (c : ConnectionConfig)
| VStr (s : string).

(** [context.globalState]: keys in enumeration order ([keys()]). *)
Definition memento : Type := list (string * stored).

Definition DefaultConnectionConfigKey : string := "sqls.conn.default".
Definition AliasPrefix : string := "sqls.conn.alias.".

Fixpoint mget (k : string) (m : memento) : option stored :=
  match m with
  | [] => None
  | (k', v) :: r => if String.eqb k' k then Some v else mget k r
  end.

(** [globalState.update(k, v)]; [update(k, undefined)] removes [k]. *)
Fixpoint mupdate (k : string) (v : option stored) (m : memento) : memento :=
  match m with
  | [] => match v with Some x => [(k, x)] | None => [] end
  | (k', y) :: r =>
      if String.eqb k' k then
        match v with Some x => (k, x) :: r | None => r end
      else (k', y) :: mupdate k v r
  end.

Definition mkeys (m : memento) : list string := map fst m.

(** Truthiness of a stored value ([if (!config)]). *)
Definition stored_truthy (v : stored) : bool :=
  match v with VConfig _ => true | VStr s => negb (String.eqb s "") end.

(** The template [`${x}`] of a stored value. *)
Definition stored_text (v : stored) : string :=
  match v with VConfig _ => "[object Object]" | VStr s => s end.

Definition updateConnectionConfig (m : memento) (c : ConnectionConfig) : memento :=
  mupdate (AliasPrefix ++ alias c) (Some (VConfig c)) m.

Definition getConnectionConfig (m : memento) (alias : string) : option stored :=
  mget (AliasPrefix ++ alias) m.

Definition removeConnectionConfig (m : memento) (alias : string) : memento :=
  mupdate (AliasPrefix ++ alias) None m.

Definition selectConnectionConfig (m : memento) (alias : string) : memento :=
  mupdate DefaultConnectionConfigKey (Some (VStr alias)) m.

(** The loop over [globalState.keys()] of [getCurrentConnectionConfig]:
    note that it passes the whole key to [getConnectionConfig]. *)
Fixpoint first_config (m : memento) (ks : list string) : option stored :=
  match ks with
  | [] => None
  | key :: rest =>
      if Text.startsWith key AliasPrefix then
        match getConnectionConfig m key with
        | Some config => if stored_truthy config then Some config else first_config m rest
        | None => first_config m rest
        end
      else first_config m rest
  end.

Definition getCurrentConnectionConfig (m : memento) : option stored :=
  match mget DefaultConnectionConfigKey m with
  | Some defaultAlias =>
      if stored_truthy defaultAlias
      then getConnectionConfig m (stored_text defaultAlias)
      else first_config m (mkeys m)
  | None => first_config m (mkeys m)
  end.

(** The lookup the specification describes for [getCurrent()]: the default
    config if resolvable, else the first config in enumeration order. *)
Fixpoint first_enumerated (m : memento) : option stored :=
  match m with
  | [] => None
  | (k, VConfig c) :: r =>
      if Text.startsWith k AliasPrefix then Some (VConfig c) else first_enumerated r
  | _ :: r => first_enumerated r
  end.

Definition getCurrent_spec (m : memento) : option stored :=
  match mget DefaultConnectionConfigKey m with
  | Some (VStr a) =>
      match getConnectionConfig m a with
      | Some (VConfig c) => Some (VConfig c)
      | _ => first_enumerated m
      end
  | _ => first_enumerated m
  end.

(** [clearConnectionConfig]: the default key is removed, then the loop runs
    over [globalState.keys()] read once, removing every alias key. *)
Definition clearConnectionConfig (m : memento) : memento :=
  let m := mupdate DefaultConnectionConfigKey None m in
  fold_left (fun m key => if Text.startsWith key AliasPrefix then mupdate key None m else m)
    (mkeys m) m.

(** [config.alias] of a stored value: [undefined] ([None]) on a string. *)
Definition stored_alias (v : stored) : option string :=
  match v with VConfig c => Some (alias c) | VStr _ => None end.

(** An element [{ selected, config }] of [getConnectionConfigs]. *)
Record entry : Type := mkEntry { selected : bool; config : stored }.

(** [defaultAlias && config.alias === defaultAlias]. *)
Definition is_selected (defaultAlias : option stored) (config : stored) : bool :=
  match defaultAlias with
  | Some d =>
      stored_truthy d &&
      match stored_alias config, d with
      | Some a, VStr s => String.eqb a s
      | _, _ => false
      end
  | None => false
  end.

(** The loop of [getConnectionConfigs] over the keys [ks]. *)
Fixpoint collect_configs (m : memento) (defaultAlias : option stored) (ks : list string)
  : list entry :=
  match ks with
  | [] => []
  | key :: rest =>
      if Text.startsWith key AliasPrefix then
        match mget key m with
        | Some config =>
            if stored_truthy config
            then mkEntry (is_selected defaultAlias config) config
                   :: collect_configs m defaultAlias rest
            else collect_configs m defaultAlias rest
        | None => collect_configs m defaultAlias rest
        end
      else collect_configs m defaultAlias rest
  end.

Definition getConnectionConfigs (m : memento) : list entry :=
  collect_configs m (mget DefaultConnectionConfigKey m) (mkeys m).

(** The calls of [ConnectionConfigManager] that write the store. *)
Inductive store_op : Type :=
| OpUpdate (c : ConnectionConfig)
| OpRemove (a : string)
| OpSelect (a : string)
| OpClear.

Definition run_store_op (m : memento) (o : store_op) : memento :=
  match o with
  | OpUpdate c => updateConnectionConfig m c
  | OpRemove a => removeConnectionConfig m a
  | OpSelect a => selectConnectionConfig m a
  | OpClear => clearConnectionConfig m
  end.

Definition run_store (m : memento) (ops : list store_op) : memento :=
  fold_left run_store_op ops m.

(** The handler of ["sqls-next.addConnectionConfig"]: [driver] is the
    value of the picked driver ([None]: the pick was dismissed), [name] and
    [connString] the answers of the two input boxes ([None]: dismissed). *)
Definition addConnectionConfigCommand (driver : option string)
  (name connString : option string) (m : memento) : memento :=
  match driver with
  | None => m
  | Some d =>
      match name with
      | None => m
      | Some n =>
          if String.eqb n "" then m else
          match connString with
          | None => m
          | Some cs =>
              if String.eqb cs "" then m
              else updateConnectionConfig m (mkConfig n d cs)
          end
      end
  end.

(** The handler of ["sqls-next.updateConnectionConfig"]: [pick] is the alias
    picked ([None]: dismissed), [newDataSourceName] the answer of the input
    box.  On a stored string, the assignment [current.dataSourceName = ...]
    throws a [TypeError] (module code is strict) before any write. *)
Definition updateConnectionConfigCommand (pick : option string)
  (newDataSourceName : option string) (m : memento) : memento :=
  match pick with
  | None => m
  | Some a =>
      match getConnectionConfig m a with
      | None => m
      | Some current =>
          if negb (stored_truthy current) then m else
          match newDataSourceName with
          | None => m
          | Some d =>
              if String.eqb d "" then m else
              match current with
              | VConfig c => updateConnectionConfig m (mkConfig (alias c) (driver c) d)
              | VStr _ => m
              end
          end
      end
  end.

End ConfigStore.

(** ** [SqlsClient] of [src/lspClient.ts]: the server lifecycle *)
Module Supervisor.

(** Requests sent to the [LanguageClient] object. *)
Inductive request : Type :=
| ClientStart (c : nat)
| ClientStop (c : nat).

(** The fields of [SqlsClient], with the output channel, the error
    notifications shown to the user and the requests sent to the client. *)
Record sqls : Type := mkSqls {
  _client : option nat;
  _state : bool;
  _restartCount : nat;
  channel : list string;
  shown : list string;
  sent : list request
}.

Definition _maxRestartAttempts : nat := 5.

Definition appendLine (s : sqls) (line : string) : sqls :=
  mkSqls (_client s) (_state s) (_restartCount s) (channel s ++ [line]) (shown s) (sent s).

Definition showErrorMessage (s : sqls) (msg : string) : sqls :=
  mkSqls (_client s) (_state s) (_restartCount s) (channel s) (shown s ++ [msg]) (sent s).

Definition send (s : sqls) (r : request) : sqls :=
  mkSqls (_client s) (_state s) (_restartCount s) (channel s) (shown s) (sent s ++ [r]).

Definition set_state (s : sqls) (b : bool) : sqls :=
  mkSqls (_client s) b (_restartCount s) (channel s) (shown s) (sent s).

Definition set_client (s : sqls) (c : option nat) : sqls :=
  mkSqls c (_state s) (_restartCount s) (channel s) (shown s) (sent s).

Definition set_restartCount (s : sqls) (n : nat) : sqls :=
  mkSqls (_client s) (_state s) n (channel s) (shown s) (sent s).

(** [lsp.CloseAction]. *)
Inductive CloseAction : Type := DoNotRestart | Restart.

(** [errorHandler.closed]. *)
Definition closed (s : sqls) : CloseAction * sqls :=
  let s := set_state (appendLine s "Language server connection closed") false in
  if Nat.leb _maxRestartAttempts (_restartCount s) then
    let s := appendLine s "Maximum restart attempts (5) reached. Server will not restart." in
    let s := showErrorMessage s
      "sqls-next: Language server has been restarted 5 times. Please check the server configuration." in
    (DoNotRestart, s)
  else
    let s := set_restartCount s (S (_restartCount s)) in
    let s := appendLine s ("Restarting language server (attempt "
                           ++ nat_to_string (_restartCount s) ++ "/5)...") in
    (Restart, s).

(** [startServer]: [exe_found] is whether the sqls binary exists (else
    [createLanguageClient] throws), [fresh] the id of a newly created
    client, [start_ok] whether [client.start()] resolves.  The result is
    [None] on success and [Some error] when the call throws. *)
Definition startServer (exe_found start_ok : bool) (fresh : nat) (s : sqls)
  : option string * sqls :=
  if _state s then (None, appendLine s "Server is already started") else
  let created :=
    match _client s with
    | Some c => Some (c, s)
    | None => if exe_found then Some (fresh, set_client s (Some fresh)) else None
    end in
  match created with
  | None =>
      let s := appendLine s "sqls executable not found at: sqls" in
      let s := showErrorMessage s
        "sqls-next: sqls executable not found at: sqls. Please ensure the sqls binary is installed." in
      (Some "sqls executable not found at: sqls", s)
  | Some (c, s) =>
      let s := appendLine s "Starting sqls language server..." in
      let s := send s (ClientStart c) in
      if start_ok then
        let s := set_restartCount (set_state s true) 0 in
        (None, appendLine s "sqls language server started successfully")
      else
        let s := set_state s false in
        let s := appendLine s "Failed to start sqls language server: start failed" in
        (Some "start failed",
         showErrorMessage s "sqls-next: Failed to start language server: start failed")
  end.

(** [stopServer]: [stop_ok] is whether [client.stop()] resolves. *)
Definition stopServer (stop_ok : bool) (s : sqls) : option string * sqls :=
  match _state s, _client s with
  | true, Some c =>
      let s := send s (ClientStop c) in
      let s := if stop_ok then appendLine s "Server stopped successfully" else s in
      let s := appendLine (set_client (set_state s false) None) "Server stopped" in
      (if stop_ok then None else Some "stop failed", s)
  | _, _ => (None, appendLine s "Server is not started")
  end.

(** [n] consecutive connection closures: the close actions returned and
    the final client. *)
Fixpoint closures (n : nat) (s : sqls) : list CloseAction * sqls :=
  match n with
  | O => ([], s)
  | S k =>
      let (a, s1) := closed s in
      let (acts, s2) := closures k s1 in
      (a :: acts, s2)
  end.

End Supervisor.

(** ** [MessageInterceptor] of [src/resultPanel.ts] *)
Module Interceptor.

Inductive MessageType : Type := Error | Warning | Info.

Definition upper (t : MessageType) : string :=
  match t with Error => "ERROR" | Warning => "WARNING" | Info => "INFO" end.

(** Function objects stored in [vscode.window]: the host's own functions
    and the arrow functions installed by [activate].  Each activation
    creates fresh closures, told apart by the activation number [gen]; a
    closure delegates to the original it closes over. *)
Inductive fn : Type :=
| Native (id : nat)
| Wrapper (gen : nat) (t : MessageType) (original : fn).

Record window : Type := mkWindow {
  showErrorMessage : fn;
  showWarningMessage : fn;
  showInformationMessage : fn
}.

Definition slot (w : window) (t : MessageType) : fn :=
  match t with
  | Error => showErrorMessage w
  | Warning => showWarningMessage w
  | Info => showInformationMessage w
  end.

Record options : Type := mkOptions {
  filter : option (value -> MessageType -> bool);
  transformer : option (value -> MessageType -> value);
  logMessages : bool
}.

Record interceptor : Type := mkInterceptor {
  originalShowErrorMessage : fn;
  originalShowWarningMessage : fn;
  originalShowInformationMessage : fn;
  opts : options;
  isActive : bool;
  generation : nat
}.

(** The host: the [vscode.window] object, the interceptor, and the lines
    written through [OutputLogger]. *)
Record world : Type := mkWorld {
  win : window;
  icpt : interceptor;
  logged : list string
}.

Definition log (w : world) (msg : string) : world :=
  mkWorld (win w) (icpt w) (app (logged w) [msg]).

(** [new MessageInterceptor(options)] with [{ logMessages: true, ...options }]. *)
Definition construct (w : window)
    (filter : option (value -> MessageType -> bool))
    (transformer : option (value -> MessageType -> value))
    (logMessages : option bool) (logged : list string) : world :=
  mkWorld w
    (mkInterceptor (showErrorMessage w) (showWarningMessage w) (showInformationMessage w)
       (mkOptions filter transformer (match logMessages with Some b => b | None => true end))
       false 0)
    logged.

Definition activate (w : world) : world :=
  let i := icpt w in
  if isActive i then w else
  let w := log w "Activating message interceptor" in
  let g := generation i in
  mkWorld
    (mkWindow (Wrapper g Error (originalShowErrorMessage i))
              (Wrapper g Warning (originalShowWarningMessage i))
              (Wrapper g Info (originalShowInformationMessage i)))
    (mkInterceptor (originalShowErrorMessage i) (originalShowWarningMessage i)
       (originalShowInformationMessage i) (opts i) true (S g))
    (logged w).

Definition deactivate (w : world) : world :=
  let i := icpt w in
  if negb (isActive i) then w else
  let w := log w "Deactivating message interceptor" in
  mkWorld
    (mkWindow (originalShowErrorMessage i) (originalShowWarningMessage i)
              (originalShowInformationMessage i))
    (mkInterceptor (originalShowErrorMessage i) (originalShowWarningMessage i)
       (originalShowInformationMessage i) (opts i) false (generation i))
    (logged w).

Definition set_opts (w : world) (o : options) : world :=
  let i := icpt w in
  mkWorld (win w)
    (mkInterceptor (originalShowErrorMessage i) (originalShowWarningMessage i)
       (originalShowInformationMessage i) o (isActive i) (generation i))
    (logged w).

Definition setFilter (w : world) (f : value -> MessageType -> bool) : world :=
  let o := opts (icpt w) in
  set_opts w (mkOptions (Some f) (transformer o) (logMessages o)).

Definition setTransformer (w : world) (f : value -> MessageType -> value) : world :=
  let o := opts (icpt w) in
  set_opts w (mkOptions (filter o) (Some f) (logMessages o)).

(** The operations a client of the interceptor performs. *)
Inductive op : Type :=
| OpActivate
| OpDeactivate
| OpSetFilter (f : value -> MessageType -> bool)
| OpSetTransformer (f : value -> MessageType -> value).

Definition run_op (w : world) (o : op) : world :=
  match o with
  | OpActivate => activate w
  | OpDeactivate => deactivate w
  | OpSetFilter f => setFilter w f
  | OpSetTransformer f => setTransformer w f
  end.

Definition run (w : world) (ops : list op) : world := fold_left run_op ops w.

(** What a call of a window function returns: the promise resolved with
    [undefined], or the return value of host function [id] on [args]. *)
Inductive call_result : Type :=
| ResolvedUndefined
| HostResult (id : nat) (args : list value).

(** [transformedMessage !== message], for the log line only: values other
    than primitives are compared as distinct. *)
Definition strict_neq (a b : value) : bool :=
  match a, b with
  | Undefined, Undefined | Null, Null => false
  | Bool x, Bool y => negb (Bool.eqb x y)
  | Num x, Num y => negb (Z.eqb x y)
  | Str x, Str y => negb (String.eqb x y)
  | _, _ => true
  end.

(** [handleMessage(type, args, originalMethod)]; [original] performs
    [originalMethod.apply(vscode.window, newArgs)]: its result, the host
    functions invoked with their arguments, and the log. *)
Definition handleMessage (o : options) (type : MessageType) (args : list value)
    (original : list value -> list string -> call_result * list (nat * list value) * list string)
    (lg : list string) : call_result * list (nat * list value) * list string :=
  let message := hd Undefined args in
  let lg := if logMessages o then app lg ["[" ++ upper type ++ "] " ++ to_string message] else lg in
  let suppressed := match filter o with Some f => negb (f message type) | None => false end in
  if suppressed then (ResolvedUndefined, [], app lg ["Message filtered: " ++ to_string message]) else
  let transformedMessage := match transformer o with Some tr => tr message type | None => message end in
  let lg := match transformer o with
            | Some _ =>
                if strict_neq transformedMessage message
                then app lg ["Message transformed: " ++ dq ++ to_string message ++ dq
                             ++ " -> " ++ dq ++ to_string transformedMessage ++ dq]
                else lg
            | None => lg
            end in
  let newArgs := transformedMessage :: tl args in
  original newArgs lg.

(** Calling a function object of [vscode.window] with [args]: a host
    function is invoked as it is, a wrapper runs [handleMessage] with the
    interceptor's current options. *)
Fixpoint call_fn (o : options) (f : fn) (args : list value) (lg : list string)
  : call_result * list (nat * list value) * list string :=
  match f with
  | Native id => (HostResult id args, [(id, args)], lg)
  | Wrapper _ t original =>
      handleMessage o t args (call_fn o original) lg
  end.

(** [vscode.window.show...Message(...args)]. *)
Definition call_window (w : world) (t : MessageType) (args : list value)
  : call_result * list (nat * list value) * list string :=
  call_fn (opts (icpt w)) (slot (win w) t) args (logged w).

End Interceptor.

(** ** Well-formed ASCII tables, as the specification describes them *)
Module AsciiTable.
Import Text.

Definition NL : string := String nl "".

(** Whether [s] contains the character [a]. *)
Fixpoint has_char (a : ascii) (s : string) : bool :=
  match s with
  | EmptyString => false
  | String b r => Ascii.eqb b a || has_char a r
  end.

(** The cells of a table line, each as [" cell |"]. *)
Fixpoint cells_text (cells : list string) : string :=
  match cells with
  | [] => ""
  | c :: r => " " ++ c ++ " |" ++ cells_text r
  end.

(** A header or data line [| c1 | c2 | ... |]. *)
Definition table_line (cells : list string) : string := "|" ++ cells_text cells.

(** Lines joined, each followed by a newline. *)
Fixpoint lines_text (ls : list string) : string :=
  match ls with
  | [] => ""
  | l :: r => l ++ NL ++ lines_text r
  end.

(** A table: border, header, border, the data lines, border, then [tail]
    (nothing, or a summary line such as ["1 rows in set"] and any text). *)
Definition table (border : string) (cols : list string) (rows : list (list string))
    (tail : string) : string :=
  lines_text ([border; table_line cols; border] ++ map table_line rows ++ [border]) ++ tail.

(** The row the specification expects for the data cells [cells] under
    header [cols]: a mapping holding every name of [cols], where the cell at
    the name's (last) position is [null] when its trimmed text is [<nil>],
    [NULL] or empty, and its trimmed text otherwise. *)
Definition expected_row (cols cells : list string) (out : value) : Prop :=
  exists fs, out = Obj fs
  /\ (forall c, In c cols -> exists x, assoc c fs = Some x)
  /\ (forall j c, nth_error cols j = Some c ->
        (forall j' c', j < j' -> nth_error cols j' = Some c' -> c' <> c) ->
        assoc c fs
        = Some (let t := trim (nth j cells "") in
                if String.eqb t "<nil>" || String.eqb t "NULL" || String.eqb t ""
                then Null else Str t)).

End AsciiTable.

(** ** Auxiliary definitions used by the statements below *)
Module SupervisorSpec.
Import Supervisor.

(** The error shown once the restart budget is spent. *)
Definition max_restarts_message : string :=
  "sqls-next: Language server has been restarted 5 times. Please check the server configuration.".

End SupervisorSpec.

Module InterceptorSpec.
Import Interceptor.

(** The wrappers installed by one activation around the originals of [w0]. *)
Definition wrapped (g : nat) (w0 : window) : window :=
  mkWindow (Wrapper g Error (showErrorMessage w0))
           (Wrapper g Warning (showWarningMessage w0))
           (Wrapper g Info (showInformationMessage w0)).

(** The interceptor keeps the functions of [w0] as its originals; inactive,
    the window holds them; active, it holds one generation of wrappers
    around them. *)
Definition inv (w0 : window) (w : world) : Prop :=
  originalShowErrorMessage (icpt w) = showErrorMessage w0
  /\ originalShowWarningMessage (icpt w) = showWarningMessage w0
  /\ originalShowInformationMessage (icpt w) = showInformationMessage w0
  /\ (isActive (icpt w) = false -> win w = w0)
  /\ (isActive (icpt w) = true -> exists g, win w = wrapped g w0).

(** Whether the filter lets message [m] of type [t] through. *)
Definition accepted (o : options) (m : value) (t : MessageType) : bool :=
  match filter o with Some f => f m t | None => true end.

(** The message after the optional transformer. *)
Definition transformed (o : options) (m : value) (t : MessageType) : value :=
  match transformer o with Some f => f m t | None => m end.

End InterceptorSpec.

Module ConfigExamples.
Import ConfigStore.

(** Two sample connection configs. *)
Definition cfgA : ConnectionConfig := mkConfig "a" "mysql" "user:password@tcp(127.0.0.1:3306)/a".
Definition cfgB : ConnectionConfig := mkConfig "b" "sqlite" "/path/to/b.db".

End ConfigExamples.

Module JsonSpec.
Import ResultParser.


End JsonSpec.

Module ConfigStoreSpec.
Import ConfigStore.
(** A well-formed store: keys are unique, and every key under the alias
    prefix holds the config of that alias. *)
Definition store_wf (m : memento) : Prop :=
  NoDup (mkeys m)
  /\ forall k v, In (k, v) m -> Text.startsWith k AliasPrefix = true ->
       exists c, v = VConfig c /\ k = (AliasPrefix ++ alias c)%string.
End ConfigStoreSpec.


(** ** The webview side of [ResultPanel] ([src/resultPanel.ts]) *)
Module Panel.

(** The messages [displayLoading], [displayResults] and [displayError]
    post to the webview. *)
Inductive panel_msg : Type :=
| DisplayLoading (message : string)
| DisplayResults (data : value)
| DisplayError (error : string).

(** The messages posted so far; [None] when there is no panel or its
    [_view] is not resolved yet, where [this._resultPanel?.display...]
    posts nothing. *)
Definition panel : Type := option (list panel_msg).

Definition post (p : panel) (m : panel_msg) : panel :=
  match p with Some l => Some (app l [m]) | None => None end.

End Panel.

(** ** The rest of [SqlsClient] ([src/lspClient.ts]) *)
Module LspClient.
Import Supervisor Panel.

(** The calls [SqlsClient] makes on its [LanguageClient] other than
    [start()] and [stop()]. *)
Inductive rpc : Type :=
| ClientRestart (c : nat)
| SendRequest (c : nat) (method : string) (params : value)
| SendNotification (c : nat) (method : string) (params : value).

(** The supervisor state and the other client calls, in order. *)
Record client : Type := mkClient { srv : sqls; rpcs : list rpc }.

Definition call (w : client) (r : rpc) : client := mkClient (srv w) (app (rpcs w) [r]).

Definition on_srv (f : sqls -> sqls) (w : client) : client := mkClient (f (srv w)) (rpcs w).

Definition log (w : client) (line : string) : client := on_srv (fun s => appendLine s line) w.

Definition isCommandNotFound (errorMsg : string) : bool :=
  Text.includes errorMsg "not found" || Text.includes errorMsg "Unknown command".

Definition isServerRunning (s : sqls) : bool :=
  _state s && match _client s with Some _ => true | None => false end.

(** [forwardCommandToServer(command, args)]: [reply] is the server's
    answer to the request. *)
Definition forwardCommandToServer (command : string) (args : option (list value))
  (reply : outcome) (w : client) : outcome * client :=
  match _client (srv w) with
  | Some c =>
      if _state (srv w) then
        (reply, call w (SendRequest c "workspace/executeCommand"
                          (Obj [("command", Str command);
                                ("arguments", Arr (match args with Some l => l | None => [] end))])))
      else (Throw "Language server not available", w)
  | None => (Throw "Language server not available", w)
  end.

(** [JSON.stringify(args)] of an array. *)
Definition args_text (l : list value) : string :=
  match stringify_val (Arr l) with Some t => t | None => "undefined" end.

(** The line logging a non-null result; [JSON.stringify] giving
    [undefined] makes [resultStr.length] throw, caught by the inner
    [catch]. *)
Definition result_line (result : value) : string :=
  match stringify_val result with
  | Some resultStr =>
      if Nat.ltb 500 (String.length resultStr)
      then "[ExecuteServerCommand] Result (truncated): " ++ substring 0 500 resultStr ++ "..."
      else "[ExecuteServerCommand] Result: " ++ resultStr
  | None => "[ExecuteServerCommand] Result: [Complex Object]"
  end.

(** [executeServerCommand(command, args)]. *)
Definition executeServerCommand (command : string) (args : option (list value))
  (reply : outcome) (w : client) : outcome * client :=
  let not_started :=
    (Throw "Language server is not started",
     log w "[ExecuteServerCommand] Language server is not started") in
  match _client (srv w) with
  | None => not_started
  | Some _ =>
      if negb (_state (srv w)) then not_started else
      let w := log w ("[ExecuteServerCommand] Executing server command: " ++ command) in
      let w := match args with
               | Some ((_ :: _) as l) => log w ("[ExecuteServerCommand] Arguments: " ++ args_text l)
               | _ => w
               end in
      match forwardCommandToServer command args reply w with
      | (Ret result, w) =>
          let w := log w ("[ExecuteServerCommand] Command executed successfully: " ++ command) in
          let w := match result with
                   | Null | Undefined => w
                   | _ => log w (result_line result)
                   end in
          (Ret result, w)
      | (Throw errorMsg, w) =>
          let w := log w ("[ExecuteServerCommand] Error executing command " ++ command
                          ++ ": " ++ errorMsg) in
          (Throw errorMsg,
           on_srv (fun s => showErrorMessage s ("Failed to execute server command " ++ command
                                                ++ ": " ++ errorMsg)) w)
      end
  end.

(** [didChangeConfiguration(params)]. *)
Definition didChangeConfiguration (params : value) (w : client) : client :=
  if negb (isServerRunning (srv w)) then w else
  match _client (srv w) with
  | Some c => call w (SendNotification c "workspace/didChangeConfiguration" params)
  | None => w
  end.

(** [restartServer]: the arguments of [startServer], and [restart_ok],
    whether [client.restart()] resolves. *)
Definition restartServer (exe_found start_ok : bool) (fresh : nat) (restart_ok : bool)
  (w : client) : option string * client :=
  match _client (srv w) with
  | None =>
      let (r, s) := startServer exe_found start_ok fresh
                      (appendLine (srv w) "Server is not initialized") in
      (r, mkClient s (rpcs w))
  | Some c =>
      let w := call w (ClientRestart c) in
      if restart_ok then (None, on_srv (fun s => set_state s true) w)
      else (Some "restart failed",
            log (on_srv (fun s => set_state s false) w) "Server restarted failed: restart failed")
  end.

(** The [executeCommand] middleware of [createLanguageClient]: [next_reply]
    is how [next(command, args)] settles, [server_reply] the server's
    answer when the command is forwarded. *)
Definition executeCommand (JSON_parse : string -> option value) (command : string)
  (args : option (list value)) (next_reply server_reply : outcome) (w : client) (p : panel)
  : outcome * client * panel :=
  let w := log w ("[ExecuteCommand] Requested to execute command: " ++ command) in
  let w := match args with
           | Some ((_ :: _) as l) => log w ("[ExecuteCommand] Arguments: " ++ args_text l)
           | _ => w
           end in
  let p := if String.eqb command "executeQuery" then post p (DisplayLoading "Executing query...")
           else p in
  let on_error (w : client) (errorMsg : string) :=
    if isCommandNotFound errorMsg then
      let w := log w ("[ExecuteCommand] Command not found in VS Code, forwarding to language server: "
                      ++ command) in
      let (r, w) := forwardCommandToServer command args server_reply w in (r, w, p)
    else
      let w := log w ("[ExecuteCommand] Error executing command " ++ command ++ ": " ++ errorMsg) in
      (Throw errorMsg, w, post p (DisplayError errorMsg)) in
  match next_reply with
  | Ret result =>
      let w := log w ("[ExecuteCommand] Command executed successfully via VS Code: " ++ command) in
      if String.eqb command "executeQuery" then
        match ResultParser.parseResultSmart JSON_parse result with
        | Ret parsedResult => (Ret result, w, post p (DisplayResults parsedResult))
        | Throw errorMsg => on_error w errorMsg
        end
      else (Ret result, w, p)
  | Throw errorMsg => on_error w errorMsg
  end.

End LspClient.

(** ** [SqlsExecuteCommandMiddleware] (unnamed source) *)
Module CommandMiddleware.
Import Panel.

(** [a[i] = x] on an array: inside it the element is replaced, past the
    end the array grows, the holes reading [undefined]. *)
Definition array_set (l : list value) (i : nat) (x : value) : list value :=
  if Nat.ltb i (List.length l) then app (firstn i l) (x :: skipn (S i) l)
  else app l (app (repeat Undefined (i - List.length l)) [x]).

(** [executeCommand(command, args, next)]: [parse] is the imported
    [parseResultSmart], [next] the next handler ([None] arguments are
    [undefined]).  The [OutputLogger] lines are left out. *)
Definition executeCommand (parse : value -> outcome)
  (next : string -> option (list value) -> outcome) (command : string)
  (args : option (list value)) (p : panel) : outcome * panel :=
  let run (args : option (list value)) (p : panel) :=
    match next command args with
    | Ret result =>
        if String.eqb command "executeQuery" then
          match parse result with
          | Ret parsed => (Ret result, post p (DisplayResults parsed))
          | Throw errorMsg => (Ret Undefined, post p (DisplayError errorMsg))
          end
        else (Ret result, p)
    | Throw errorMsg => (Ret Undefined, post p (DisplayError errorMsg))
    end in
  if String.eqb command "executeQuery" then
    match args with
    | None => (Throw "TypeError: Cannot set properties of undefined (setting '1')", p)
    | Some l => run (Some (array_set l 1 (Str "-show-json")))
                  (post p (DisplayLoading "Executing query..."))
    end
  else run args p.

End CommandMiddleware.

Module ConnectionSelect.
Import ConfigStore LspClient.

(** A stored value as the JavaScript value read back. *)
Definition stored_value (v : stored) : value :=
  match v with
  | VConfig c => Obj [("alias", Str (alias c)); ("driver", Str (driver c));
                      ("dataSourceName", Str (dataSourceName c))]
  | VStr s => Str s
  end.

(** The parameters of the [didChangeConfiguration] call for [config]. *)
Definition configuration_params (config : value) : value :=
  Obj [("settings",
        Obj [("sqls",
              Obj [("lowercaseKeywords", Bool false);
                   ("connections",
                    Arr [Obj [("alias", get config "alias");
                              ("driver", get config "driver");
                              ("dataSourceName", get config "dataSourceName")]])])])].

Definition selectConnectionConfigByConnectionConfig (config : stored) (w : client) : client :=
  didChangeConfiguration (configuration_params (stored_value config)) w.

Definition selectConnectionConfigByAlias (alias : string) (changeDefault : bool)
  (m : memento) (w : client) : memento * client :=
  let m := if changeDefault then selectConnectionConfig m alias else m in
  match getConnectionConfig m alias with
  | None => (m, w)
  | Some config =>
      if negb (stored_truthy config) then (m, w)
      else (m, selectConnectionConfigByConnectionConfig config w)
  end.

End ConnectionSelect.


(** ** [ResultPanel._exportToCsv] ([src/resultPanel.ts]) *)
Module CsvExport.

(** [k] as an array index: the canonical decimal numerals. *)
Definition array_index (k : string) : option nat :=
  match NilEmpty.uint_of_string k with
  | Some u => let n := Nat.of_uint u in if String.eqb (nat_to_string n) k then Some n else None
  | None => None
  end.

(** Property read [v[k]] with a string key on a value that is not
    [null]/[undefined]: indices of arrays and strings, and own properties
    otherwise. *)
Definition read_prop (v : value) (k : string) : value :=
  match v with
  | Arr l => match array_index k with Some i => nth i l Undefined | None => get v k end
  | Str s =>
      match array_index k with
      | Some i => match String.get i s with Some c => Str (String c "") | None => Undefined end
      | None => get v k
      end
  | _ => get v k
  end.

Fixpoint map_opt {A B : Type} (f : A -> option B) (l : list A) : option (list B) :=
  match l with
  | [] => Some []
  | x :: r =>
      match f x, map_opt f r with
      | Some y, Some ys => Some (y :: ys)
      | _, _ => None
      end
  end.

(** [col.name]: a [TypeError] ([None]) on a [null]/[undefined] column. *)
Definition col_name (col : value) : option value :=
  match col with Undefined | Null => None | _ => Some (get col "name") end.

(** An element as [Array.prototype.join] writes it. *)
Definition join_text (v : value) : string :=
  match v with Undefined | Null => "" | _ => to_string v end.

(** [s.replaceAll] doubling every double quote. *)
Fixpoint double_quotes (s : string) : string :=
  match s with
  | EmptyString => ""
  | String a r =>
      if Ascii.eqb a "034"%char then String a (String a (double_quotes r))
      else String a (double_quotes r)
  end.

(** The cell written for [value = row[col.name]]. *)
Definition csv_cell (v : value) : string :=
  match v with
  | Undefined | Null => ""
  | _ =>
      let stringValue := to_string v in
      if Text.includes stringValue "," || Text.includes stringValue dq
      then dq ++ double_quotes stringValue ++ dq
      else stringValue
  end.

(** The line of one row: [data.columns.map(col => ...).join(",")]; reading
    [row[col.name]] throws on a [null]/[undefined] row. *)
Definition row_line (columns : list value) (row : value) : option string :=
  match map_opt (fun col =>
                   match col_name col, row with
                   | None, _ | _, (Undefined | Null) => None
                   | Some name, _ => Some (csv_cell (read_prop row (to_string name)))
                   end) columns with
  | Some cells => Some (String.concat "," cells)
  | None => None
  end.

(** What [_exportToCsv(data)] does before the save dialog: warn ["No data
    to export"], fail with a [TypeError], or build the text [csv]. *)
Inductive export_result : Type :=
| NoData
| CsvTypeError
| CsvText (csv : string).

Definition exportToCsv (data : value) : export_result :=
  match data with
  | Undefined | Null => NoData
  | _ =>
      let rows := get data "rows" in
      if negb (truthy rows) then NoData else
      match get rows "length" with
      | Num Z0 => NoData
      | _ =>
          match get data "columns", rows with
          | Arr columns, Arr rs =>
              match map_opt col_name columns with
              | None => CsvTypeError
              | Some names =>
                  match map_opt (row_line columns) rs with
                  | None => CsvTypeError
                  | Some lines =>
                      CsvText (String.concat "," (map join_text names) ++ String Text.nl ""
                               ++ String.concat (String Text.nl "") lines)
                  end
              end
          | _, _ => CsvTypeError
          end
      end
  end.

End CsvExport.

(** ** Reading CSV text back *)
Module CsvSpec.
Import Text.

(** A reader for CSV records without line breaks inside fields (RFC 4180
    otherwise): a field is plain text up to the next comma, or quoted, where
    a doubled quote stands for one quote. *)
Inductive st : Type :=
| Start
| Plain (acc : string)
| Quoted (acc : string)
| QuoteSeen (acc : string).

Definition dqc : ascii := "034"%char.
Definition comma : ascii := ","%char.

Fixpoint go (q : st) (fields : list string) (s : string) : list string :=
  match s with
  | EmptyString =>
      app fields [match q with Start => "" | Plain a | Quoted a | QuoteSeen a => a end]
  | String c r =>
      match q with
      | Start =>
          if Ascii.eqb c dqc then go (Quoted "") fields r
          else if Ascii.eqb c comma then go Start (app fields [""]) r
          else go (Plain (String c "")) fields r
      | Plain a =>
          if Ascii.eqb c comma then go Start (app fields [a]) r
          else go (Plain (a ++ String c "")) fields r
      | Quoted a =>
          if Ascii.eqb c dqc then go (QuoteSeen a) fields r
          else go (Quoted (a ++ String c "")) fields r
      | QuoteSeen a =>
          if Ascii.eqb c dqc then go (Quoted (a ++ String c "")) fields r
          else if Ascii.eqb c comma then go Start (app fields [a]) r
          else go (Plain (a ++ String c "")) fields r
      end
  end.

Definition parse_line (s : string) : list string := go Start [] s.

Definition parse_csv (text : string) : list (list string) := map parse_line (split nl text).

(** The reader's state after a field: what the next comma or the end of
    the line records. *)
Definition closes (q : st) (x : string) : Prop :=
  forall f r, go q f "" = app f [x] /\ go q f (String comma r) = go Start (app f [x]) r.

End CsvSpec.

(** Shape of the cells of a parsed ASCII table. *)
Module AsciiShape.
(** A cell value [parseAsciiTableResult] may produce. *)
Definition cell_ok (v : value) : Prop :=
  v = Null \/ exists t, v = Str t /\ t <> "" /\ t <> "<nil>" /\ t <> "NULL".

End AsciiShape.


(** ** [createMessageFilter] and [createMessageTransformer]
       ([src/resultPanel.ts]) *)
Module MessageHelpers.
Import Interceptor.

(** A pattern: a string, or a regular expression given by its [test]
    (without the [g] and [y] flags, [test] keeps no state). *)
Inductive pattern : Type :=
| PString (s : string)
| PRegExp (test : string -> bool).

(** The function [createMessageFilter(patterns)] returns. *)
Fixpoint createMessageFilter (patterns : list pattern) (message : string) (_type : MessageType)
  : bool :=
  match patterns with
  | [] => true
  | PString p :: rest =>
      if Text.includes message p then false else createMessageFilter rest message _type
  | PRegExp test :: rest =>
      if test message then false else createMessageFilter rest message _type
  end.

(** [from] of a replacement: a string, or a regular expression given by
    [message.replace(regexp, to)]. *)
Inductive from_pattern : Type :=
| FromString (s : string)
| FromRegExp (replace : string -> string -> string).

Record replacement : Type := mkReplacement { from : from_pattern; to : string }.

(** [GetSubstitution] for a string search (no capture groups): [$$],
    [$&], [$`] and [$'] are expanded, any other [$] is kept. *)
Fixpoint get_substitution (matched before after : string) (template : string) : string :=
  match template with
  | EmptyString => ""
  | String c r =>
      if Ascii.eqb c "$"%char then
        match r with
        | String d r' =>
            if Ascii.eqb d "$"%char then String "$"%char (get_substitution matched before after r')
            else if Ascii.eqb d "&"%char then matched ++ get_substitution matched before after r'
            else if Ascii.eqb d "`"%char then before ++ get_substitution matched before after r'
            else if Ascii.eqb d "'"%char then after ++ get_substitution matched before after r'
            else String c (get_substitution matched before after r)
        | EmptyString => String c ""
        end
      else String c (get_substitution matched before after r)
  end.

(** [message.replace(searchValue, replaceValue)] with a string
    [searchValue]: the first occurrence only. *)
Definition replace_string (message searchValue replaceValue : string) : string :=
  match String.index 0 searchValue message with
  | None => message
  | Some i =>
      let before := substring 0 i message in
      let after := substring (i + String.length searchValue) (String.length message) message in
      before ++ get_substitution searchValue before after replaceValue ++ after
  end.

(** The function [createMessageTransformer(replacements)] returns. *)
Definition createMessageTransformer (replacements : list replacement) (message : string)
  (_type : MessageType) : string :=
  fold_left (fun result r =>
               match from r with
               | FromString s => replace_string result s (to r)
               | FromRegExp replace => replace result (to r)
               end) replacements message.

End MessageHelpers.


(** * Properties *)

(** ** Supervisor *)
Section SupervisorProps.
Import Supervisor SupervisorSpec.

Lemma closed_below_max (s : sqls) :
  _restartCount s < _maxRestartAttempts ->
  fst (closed s) = Restart /\ _restartCount (snd (closed s)) = S (_restartCount s)
  /\ _state (snd (closed s)) = false /\ shown (snd (closed s)) = shown s.
Proof.
  unfold closed, _maxRestartAttempts; cbn [set_state appendLine _restartCount]. intros H.
  destruct (Nat.leb 5 (_restartCount s)) eqn:E.
  - apply Nat.leb_le in E. lia.
  - cbn. repeat split; reflexivity.
Qed.


Lemma closed_at_max (s : sqls) :
  _maxRestartAttempts <= _restartCount s ->
  fst (closed s) = DoNotRestart /\ _restartCount (snd (closed s)) = _restartCount s
  /\ _state (snd (closed s)) = false
  /\ shown (snd (closed s)) = (shown s ++ [max_restarts_message])%list.
Proof.
  unfold closed, _maxRestartAttempts; cbn [set_state appendLine _restartCount]. intros H.
  destruct (Nat.leb 5 (_restartCount s)) eqn:E.
  - cbn. repeat split; reflexivity.
  - apply Nat.leb_gt in E. lia.
Qed.

Lemma closures_at_max (k : nat) (s : sqls) :
  _maxRestartAttempts <= _restartCount s ->
  fst (closures (S k) s) = repeat DoNotRestart (S k)
  /\ _restartCount (snd (closures (S k) s)) = _restartCount s
  /\ _state (snd (closures (S k) s)) = false
  /\ shown (snd (closures (S k) s)) = (shown s ++ repeat max_restarts_message (S k))%list.
Proof.
  revert s. induction k as [|k IH]; intros s H.
  - cbn [closures]. destruct (closed s) as [a s1] eqn:E.
    destruct (closed_at_max s H) as (H1 & H2 & H3 & H4). rewrite E in *. cbn in *.
    subst a. repeat split; assumption.
  - change (closures (S (S k)) s) with
      (let (a, s1) := closed s in let (acts, s2) := closures (S k) s1 in (a :: acts, s2)).
    destruct (closed_at_max s H) as (H1 & H2 & H3 & H4).
    destruct (closed s) as [a s1] eqn:E. cbn in H1, H2, H3, H4. subst a.
    assert (H' : _maxRestartAttempts <= _restartCount s1) by lia.
    destruct (IH s1 H') as (J1 & J2 & J3 & J4).
    destruct (closures (S k) s1) as [acts s2]. cbn in *.
    rewrite J1. repeat split; try congruence.
    rewrite J4, H4, <- app_assoc. reflexivity.
Qed.

(** C7: from a restart counter of 0, each closure below the budget of 5
    increments the counter and asks for a restart; the first 5 consecutive
    closures all restart, and every closure after them (the 6th and on)
    returns [DoNotRestart], leaves [_state] false and shows the
    max-restarts error to the user. *)
Theorem restart_budget (s : sqls) (H0 : _restartCount s = 0) :
  (forall t : sqls, _restartCount t < _maxRestartAttempts ->
     fst (closed t) = Restart /\ _restartCount (snd (closed t)) = S (_restartCount t))
  /\ fst (closures 5 s) = [Restart; Restart; Restart; Restart; Restart]
  /\ _restartCount (snd (closures 5 s)) = 5
  /\ (forall k : nat,
        let s5 := snd (closures 5 s) in
        fst (closures (S k) s5) = repeat DoNotRestart (S k)
        /\ _state (snd (closures (S k) s5)) = false
        /\ shown (snd (closures (S k) s5)) = (shown s5 ++ repeat max_restarts_message (S k))%list).
Proof.
  split; [intros t Ht; destruct (closed_below_max t Ht) as (A & B & _); split; assumption|].
  destruct s as [c st n ch sh se]. cbn in H0. subst n.
  split; [reflexivity|]. split; [reflexivity|].
  intros k s5.
  assert (H5 : _maxRestartAttempts <= _restartCount s5) by (unfold s5, _maxRestartAttempts; cbn; lia).
  destruct (closures_at_max k s5 H5) as (A & _ & C & D). repeat split; assumption.
Qed.

Lemma restart_budget_witness :
  let s := mkSqls (Some 1) true 0 [] [] [] in
  _restartCount s = 0 /\ fst (closures 5 s) = [Restart; Restart; Restart; Restart; Restart].
Proof.
  cbv zeta. split; [reflexivity|].
  exact (proj1 (proj2 (restart_budget (mkSqls (Some 1) true 0 [] [] []) eq_refl))).
Defined.

(** C10: [stopServer] on a client that is not running returns normally,
    sends no request to the client and leaves [_state], [_client] and the
    restart counter as they were. *)
Theorem stopServer_not_running (stop_ok : bool) (s : sqls)
  (H : _state s = false \/ _client s = None) :
  fst (stopServer stop_ok s) = None
  /\ sent (snd (stopServer stop_ok s)) = sent s
  /\ _state (snd (stopServer stop_ok s)) = _state s
  /\ _client (snd (stopServer stop_ok s)) = _client s
  /\ _restartCount (snd (stopServer stop_ok s)) = _restartCount s.
Proof.
  unfold stopServer.
  destruct (_state s) eqn:Es, (_client s) eqn:Ec;
    [destruct H; discriminate| | |]; cbn; rewrite ?Es, ?Ec; repeat split.
Qed.

Lemma stopServer_not_running_witness :
  let s := mkSqls (Some 3) false 2 [] [] [] in
  (_state s = false \/ _client s = None) /\ fst (stopServer true s) = None
  /\ sent (snd (stopServer true s)) = [].
Proof.
  cbv zeta. split; [left; reflexivity|].
  destruct (stopServer_not_running true (mkSqls (Some 3) false 2 [] [] []) (or_introl eq_refl))
    as (A & B & _).
  split; [exact A | exact B].
Defined.

End SupervisorProps.

(** ** Message interceptor *)
Section InterceptorProps.
Import Interceptor InterceptorSpec.



Lemma construct_inv (w0 : window) flt tr lm lg :
  inv w0 (construct w0 flt tr lm lg).
Proof.
  destruct w0. repeat split; cbn; try reflexivity; discriminate.
Qed.

Lemma run_op_inv (w0 : window) (w : world) (o : op) :
  inv w0 w -> inv w0 (run_op w o).
Proof.
  destruct w as [[e wa i] [oe ow oi op act g] lg].
  intros (H1 & H2 & H3 & H4 & H5); cbn in *.
  destruct o; cbn.
  - destruct act; cbn.
    + repeat split; auto.
    + repeat split; auto; [discriminate|]. intros _. exists g. subst. reflexivity.
  - destruct act; cbn.
    + repeat split; auto; [|discriminate]. intros _. subst. destruct w0; reflexivity.
    + repeat split; auto.
  - repeat split; auto.
  - repeat split; auto.
Qed.

Lemma run_inv (w0 : window) (ops : list op) :
  forall w : world, inv w0 w -> inv w0 (run w ops).
Proof.
  induction ops as [|o ops IH]; intros w H; [exact H|].
  apply IH. apply run_op_inv. exact H.
Qed.

(** C8: after any sequence of [activate]/[deactivate] (and filter or
    transformer updates) that ends with [deactivate], the three window
    functions are the very functions found at construction and the
    interceptor is inactive; and at every point each window function is
    either its original or a single wrapper delegating to that original. *)
Theorem deactivate_restores_originals (w0 : window) flt tr lm lg (ops : list op) :
  win (run (construct w0 flt tr lm lg) (ops ++ [OpDeactivate])) = w0
  /\ isActive (icpt (run (construct w0 flt tr lm lg) (ops ++ [OpDeactivate]))) = false
  /\ (forall (ops' : list op) (t : MessageType),
        slot (win (run (construct w0 flt tr lm lg) ops')) t = slot w0 t
        \/ exists g, slot (win (run (construct w0 flt tr lm lg) ops')) t = Wrapper g t (slot w0 t)).
Proof.
  assert (Hd : forall w, inv w0 w ->
            win (run_op w OpDeactivate) = w0 /\ isActive (icpt (run_op w OpDeactivate)) = false).
  { intros [[e wa i] [oe ow oi op act g] l] (H1 & H2 & H3 & H4 & H5); cbn in *.
    destruct act; cbn.
    - subst. destruct w0; split; reflexivity.
    - split; [apply H4|]; reflexivity. }
  unfold run at 1 2. rewrite !fold_left_app. fold (run (construct w0 flt tr lm lg) ops).
  pose proof (run_inv w0 ops _ (construct_inv w0 flt tr lm lg)) as Hi.
  destruct (Hd _ Hi) as [A B]. cbn [fold_left]. split; [exact A|]. split; [exact B|].
  intros ops' t.
  destruct (run_inv w0 ops' _ (construct_inv w0 flt tr lm lg)) as (_ & _ & _ & H4 & H5).
  destruct (isActive (icpt (run (construct w0 flt tr lm lg) ops'))) eqn:E.
  - right. destruct (H5 eq_refl) as [g Hg]. exists g. rewrite Hg. destruct t; reflexivity.
  - left. rewrite (H4 eq_refl). reflexivity.
Qed.



(** C9: while the interceptor is active, a call of a window function with
    arguments [args] (message [hd args]) whose message the filter rejects
    resolves to [undefined] and invokes no host function; one the filter
    accepts invokes the original host function exactly once, with the
    transformed message followed by the remaining arguments unchanged, and
    returns its result. *)
Theorem active_call (e wn i : nat) flt tr lm lg (ops : list op)
  (t : MessageType) (args : list value)
  (Hact : isActive (icpt (run (construct (mkWindow (Native e) (Native wn) (Native i))
                                flt tr lm lg) ops)) = true) :
  let w := run (construct (mkWindow (Native e) (Native wn) (Native i)) flt tr lm lg) ops in
  let o := opts (icpt w) in
  let m := hd Undefined args in
  let id := match t with Error => e | Warning => wn | Info => i end in
  (accepted o m t = false ->
     fst (fst (call_window w t args)) = ResolvedUndefined
     /\ snd (fst (call_window w t args)) = [])
  /\ (accepted o m t = true ->
     fst (fst (call_window w t args)) = HostResult id (transformed o m t :: tl args)
     /\ snd (fst (call_window w t args)) = [(id, transformed o m t :: tl args)]).
Proof.
  cbv zeta.
  destruct (run_inv (mkWindow (Native e) (Native wn) (Native i)) ops _ (construct_inv _ flt tr lm lg))
    as (_ & _ & _ & _ & H5).
  destruct (H5 Hact) as [g Hg].
  remember (run (construct (mkWindow (Native e) (Native wn) (Native i)) flt tr lm lg) ops) as w.
  unfold call_window. rewrite Hg. clear Heqw Hg Hact H5.
  unfold accepted, transformed.
  destruct t; cbn [slot wrapped showErrorMessage showWarningMessage showInformationMessage call_fn];
    unfold handleMessage;
    destruct (filter (opts (icpt w))) as [f|]; cbn;
    try (destruct (f (hd Undefined args) _); cbn);
    (split; intros Hf; try discriminate; split; reflexivity).
Qed.

Lemma active_call_witness :
  let w := run (construct (mkWindow (Native 1) (Native 2) (Native 3)) None None None [])
               [OpActivate; OpActivate; OpSetFilter (fun m _ => negb (match m with Str s => String.eqb s "no database connection" | _ => false end))] in
  isActive (icpt w) = true
  /\ fst (fst (call_window w Error [Str "no database connection"])) = ResolvedUndefined.
Proof.
  cbv zeta. split; [vm_compute; reflexivity|].
  apply (proj1 (active_call 1 2 3 None None None []
     [OpActivate; OpActivate; OpSetFilter (fun m _ => negb (match m with Str s => String.eqb s "no database connection" | _ => false end))]
     Error [Str "no database connection"] eq_refl)).
  vm_compute. reflexivity.
Defined.

End InterceptorProps.

(** ** Connection config store *)
Section ConfigProps.
Import ConfigStore ConfigExamples.


(** With a default alias whose config is stored, [getCurrentConnectionConfig]
    returns that config. *)
Lemma getCurrent_default_resolves (m : memento) (a : string) (c : ConnectionConfig) :
  a <> "" -> mget DefaultConnectionConfigKey m = Some (VStr a) ->
  getConnectionConfig m a = Some (VConfig c) ->
  getCurrentConnectionConfig m = Some (VConfig c).
Proof.
  intros Ha Hd Hc. unfold getCurrentConnectionConfig. rewrite Hd. cbn.
  destruct (String.eqb a "") eqn:E; [apply String.eqb_eq in E; contradiction|].
  exact Hc.
Qed.

(** C2 (failing inputs): with one stored config and no default,
    [getCurrentConnectionConfig] returns nothing, because its fallback loop
    looks the whole key up again under the alias prefix; with a default
    pointer left dangling by [removeConnectionConfig], it also returns
    nothing, because it returns the default lookup without a fallback.  The
    specified [getCurrent] returns config [a] in both stores. *)
Theorem getCurrent_fallback_missed :
  let m1 := updateConnectionConfig [] cfgA in
  let m2 := removeConnectionConfig
              (selectConnectionConfig (updateConnectionConfig m1 cfgB) "b") "b" in
  getCurrentConnectionConfig m1 = None /\ getCurrent_spec m1 = Some (VConfig cfgA)
  /\ getCurrentConnectionConfig m2 = None /\ getCurrent_spec m2 = Some (VConfig cfgA).
Proof. vm_compute. repeat split. Qed.

End ConfigProps.

(** ** Result parsers *)
Section ParserProps.

(** The fast path of [resultParser.ts] returns a value with non-empty
    [rows] whose first row is a non-array object unchanged. *)
Lemma fast_path_identity_nonempty (JSON_parse : string -> option value)
  (fs : list (string * value)) (cols : value) (r0 : list (string * value)) (rs : list value) :
  assoc "columns" fs = Some cols -> truthy cols = true ->
  assoc "rows" fs = Some (Arr (Obj r0 :: rs)) ->
  ResultParser.parseResultSmart JSON_parse (Obj fs) = Ret (Obj fs).
Proof.
  intros Hc Ht Hr. unfold ResultParser.parseResultSmart, ResultParser.fast_path.
  cbn [truthy typeof get]. rewrite Hc, Hr, Ht. reflexivity.
Qed.

(** C3 (failing input): a canonical [QueryResult] with an empty [rows]
    array misses the fast path of [resultParser.ts] and goes through
    [parseJsonResult], which rewrites each column object to the name
    ["[object Object]"]; the ASCII-table variant returns it unchanged. *)
Theorem fast_path_empty_rows_rewritten (JSON_parse : string -> option value) :
  let qr := Obj [("columns", Arr [Obj [("name", Str "id")]]); ("rows", Arr [])] in
  ResultParser.parseResultSmart JSON_parse qr
    = Ret (Obj [("columns", Arr [Obj [("name", Str "[object Object]")]]);
                ("rows", Arr []); ("rowsAffected", Num 0)])
  /\ ResultParser.parseResultSmart JSON_parse qr <> Ret qr
  /\ AsciiResultParser.parseResultSmart qr = Ret qr.
Proof.
  cbv zeta. split; [reflexivity|]. split; [discriminate|reflexivity].
Qed.

(** [parseResultSmart] of [resultParser.ts] returns a result on every
    (tree-shaped) value. *)
Lemma ResultParser_total (JSON_parse : string -> option value) (v : value) :
  exists q, ResultParser.parseResultSmart JSON_parse v = Ret q.
Proof.
  unfold ResultParser.parseResultSmart.
  destruct (ResultParser.fast_path v) as [q|]; [eauto|].
  destruct v; try destruct (JSON_parse s) as [j|];
    try destruct (ResultParser.parseJsonResult _); cbn; eauto.
Qed.

(** C1 (failing input): the ASCII-table variant of [parseResultSmart]
    throws on the array [[null]]: [typeof null === "object"] lets it reach
    [Object.keys(null)].  The [resultParser.ts] variant, which tests
    [result !== null], returns the fallback result there. *)
Theorem ascii_parseResultSmart_throws_on_null_row (JSON_parse : string -> option value) :
  AsciiResultParser.parseResultSmart (Arr [Null])
    = Throw "TypeError: Cannot convert undefined or null to object"
  /\ ResultParser.parseResultSmart JSON_parse (Arr [Null]) = Ret (single_result (Str "[null]")).
Proof. split; reflexivity. Qed.

(** C4 (counterexample): the string ["hello"] fails the detection predicate
    [isAsciiTable] and is no JSON text, yet the ASCII-table variant neither
    wraps it raw nor returns any [parseJsonResult] result: it returns the
    fallback holding [JSON.stringify("hello")]. *)
Theorem string_dispatch_counterexample :
  AsciiResultParser.isAsciiTable "hello" = false
  /\ AsciiResultParser.parseResultSmart (Str "hello")
     = Ret (single_result (Str (dq ++ "hello" ++ dq)))
  /\ AsciiResultParser.parseResultSmart (Str "hello") <> Ret (single_result (Str "hello"))
  /\ (forall j, Ret match ResultParser.parseJsonResult j with Ret q => q | Throw _ => Null end
                <> AsciiResultParser.parseResultSmart (Str "hello")).
Proof.
  split; [reflexivity|]. split; [reflexivity|]. split; [discriminate|].
  intros j. unfold ResultParser.parseJsonResult.
  destruct (negb (truthy j) || negb (String.eqb (typeof j) "object")); [discriminate|].
  destruct (has_prop "rows_affected" j && String.eqb (typeof (get j "rows_affected")) "number");
    [discriminate|].
  destruct (has_prop "columns" j && has_prop "rows" j); [|discriminate].
  destruct (get j "columns"); try discriminate. destruct (get j "rows"); try discriminate.
  destruct l; [discriminate|]. destruct (ResultParser.convert_rows _ _); discriminate.
Qed.

(** C4 (amended): on a string [s], [parseResultSmart] of [resultParser.ts]
    never parses an ASCII table: it returns [parseJsonResult(JSON.parse(s))]
    when neither throws and otherwise wraps [s] raw under column
    ["result"].  The ASCII-table variant parses [s] as a table exactly when
    [s] contains ["+--"] and ["|"], wrapping [s] raw when that parse throws,
    and never calls [JSON.parse]: any other string gives the fallback that
    holds [JSON.stringify(s)]. *)
Theorem string_dispatch (JSON_parse : string -> option value) (s : string) :
  ResultParser.parseResultSmart JSON_parse (Str s)
    = match JSON_parse s with
      | Some j => match ResultParser.parseJsonResult j with
                  | Ret q => Ret q
                  | Throw _ => Ret (single_result (Str s))
                  end
      | None => Ret (single_result (Str s))
      end
  /\ AsciiResultParser.parseResultSmart (Str s)
    = if Text.includes s "+--" && Text.includes s "|" then
        match AsciiResultParser.parseAsciiTableResult s with
        | Ret r => Ret r
        | Throw _ => Ret (single_result (Str s))
        end
      else Ret (single_result (Str (dq ++ escape s ++ dq))).
Proof.
  unfold ResultParser.parseResultSmart, ResultParser.fast_path,
    AsciiResultParser.parseResultSmart.
  cbn [truthy typeof]. destruct (String.eqb s ""); split; reflexivity.
Qed.

End ParserProps.

(** ** [parseJsonResult] *)
Section JsonResultProps.
Import ResultParser JsonSpec.

Lemma assoc_obj_set_same (k : string) (x : value) (fs : list (string * value)) :
  assoc k (obj_set k x fs) = Some x.
Proof.
  induction fs as [|[k' y] r IH]; cbn.
  - rewrite String.eqb_refl. reflexivity.
  - destruct (String.eqb k' k) eqn:E; cbn.
    + rewrite String.eqb_refl. reflexivity.
    + rewrite E. exact IH.
Qed.

Lemma assoc_obj_set_other (k k0 : string) (x : value) (fs : list (string * value)) :
  k0 <> k -> assoc k0 (obj_set k x fs) = assoc k0 fs.
Proof.
  intros Hne. induction fs as [|[k' y] r IH]; cbn.
  - destruct (String.eqb k k0) eqn:E; [apply String.eqb_eq in E; congruence|reflexivity].
  - destruct (String.eqb k' k) eqn:E; cbn.
    + apply String.eqb_eq in E. subst k'.
      destruct (String.eqb k k0) eqn:E2; [apply String.eqb_eq in E2; congruence|reflexivity].
    + rewrite IH. reflexivity.
Qed.

(** A write through [obj_put] changes, among the keys other than
    [__proto__], only the key written. *)
Lemma assoc_obj_put (k k' : string) (x : value) (o : list (string * value) * bool) :
  k <> "__proto__" ->
  assoc k (fst (obj_put k' x o)) = if String.eqb k' k then Some x else assoc k (fst o).
Proof.
  intros Hk. destruct o as [fs b]. unfold obj_put. cbn [fst].
  destruct (String.eqb_spec k' k) as [->|Hne].
  - destruct (assoc k fs); [apply assoc_obj_set_same|].
    replace (String.eqb k "__proto__") with false
      by (symmetry; apply String.eqb_neq; exact Hk).
    apply assoc_obj_set_same.
  - destruct (assoc k' fs); [apply assoc_obj_set_other; congruence|].
    destruct (String.eqb k' "__proto__" && b).
    + destruct x; reflexivity.
    + apply assoc_obj_set_other. congruence.
Qed.

(** Any key after an [obj_put]: unchanged, or the key written holding the
    value written. *)
Lemma assoc_obj_put_cases (k k' : string) (x : value) (o : list (string * value) * bool) :
  assoc k (fst (obj_put k' x o)) = assoc k (fst o)
  \/ (k = k' /\ assoc k (fst (obj_put k' x o)) = Some x).
Proof.
  destruct o as [fs b]. unfold obj_put. simpl fst.
  destruct (String.eqb_spec k' k) as [->|Hne].
  - destruct (assoc k fs) eqn:E; [right; split; [reflexivity|apply assoc_obj_set_same]|].
    destruct (String.eqb k "__proto__" && b).
    + left. destruct x; simpl fst; rewrite ?E; reflexivity.
    + right. split; [reflexivity|apply assoc_obj_set_same].
  - left. destruct (assoc k' fs); [apply assoc_obj_set_other; congruence|].
    destruct (String.eqb k' "__proto__" && b).
    + destruct x; reflexivity.
    + apply assoc_obj_set_other. congruence.
Qed.







End JsonResultProps.

(** ** [parseAsciiTableResult] on well-formed tables *)
Section AsciiTableProps.
Import Text AsciiTable AsciiResultParser.

Lemma sapp_assoc (x y z : string) : ((x ++ y) ++ z)%string = (x ++ (y ++ z))%string.
Proof. induction x as [|a x IH]; cbn; [reflexivity|]. rewrite IH. reflexivity. Qed.

Lemma has_char_app (a : ascii) (x y : string) :
  has_char a (x ++ y) = has_char a x || has_char a y.
Proof.
  induction x as [|b x IH]; cbn; [reflexivity|]. rewrite IH. apply orb_assoc.
Qed.

Lemma has_letter_app (x y : string) :
  has_letter (x ++ y) = has_letter x || has_letter y.
Proof.
  induction x as [|b x IH]; cbn; [reflexivity|]. rewrite IH. apply orb_assoc.
Qed.

(** Splitting at a separator that ends the first piece. *)
Lemma split_sep (c : ascii) (l r : string) :
  has_char c l = false -> split c (l ++ String c r) = l :: split c r.
Proof.
  induction l as [|a l IH]; cbn; intros H.
  - rewrite Ascii.eqb_refl. reflexivity.
  - apply orb_false_iff in H as [H1 H2]. rewrite (IH H2), H1. reflexivity.
Qed.

Lemma split_lines (ls : list string) (tail : string) :
  Forall (fun l => has_char nl l = false) ls ->
  split nl (lines_text ls ++ tail) = (ls ++ split nl tail)%list.
Proof.
  induction ls as [|l ls IH]; intros H; [reflexivity|].
  inversion H as [|? ? Hl Hls]; subst. cbn [lines_text].
  rewrite !sapp_assoc. cbn [NL append]. rewrite (split_sep nl l _ Hl), IH by exact Hls.
  reflexivity.
Qed.

Lemma split_cells (cells : list string) :
  Forall (fun x => has_char pipe x = false) cells ->
  split pipe (cells_text cells) = app (map (fun c => " " ++ c ++ " ") cells) [""].
Proof.
  induction cells as [|c cs IH]; intros H; [reflexivity|].
  inversion H as [|? ? Hc Hcs]; subst. cbn [cells_text map].
  replace (" " ++ c ++ " |" ++ cells_text cs)
    with ((" " ++ c ++ " ") ++ String pipe (cells_text cs)).
  - rewrite split_sep, IH by (try exact Hcs; rewrite !has_char_app, Hc; reflexivity).
    reflexivity.
  - rewrite !sapp_assoc. reflexivity.
Qed.

Lemma trim_end_space (x : string) : trim_end (x ++ " ") = trim_end x.
Proof.
  induction x as [|a x IH]; [reflexivity|]. cbn [append trim_end]. rewrite IH. reflexivity.
Qed.

Lemma trim_start_app (x y : string) :
  trim_start (x ++ y) = if String.eqb (trim_start x) "" then trim_start y else (trim_start x ++ y)%string.
Proof.
  induction x as [|a x IH]; [reflexivity|]. cbn [append trim_start].
  destruct (is_ws a); [exact IH|reflexivity].
Qed.

Lemma trim_pad (c : string) : trim (" " ++ c ++ " ") = trim c.
Proof.
  unfold trim. cbn [append trim_start is_ws nat_of_ascii]. cbn.
  rewrite trim_start_app. destruct (String.eqb (trim_start c) "") eqn:E.
  - apply String.eqb_eq in E. rewrite E. reflexivity.
  - apply trim_end_space.
Qed.

(** The trimmed fields of a table line are its trimmed cells. *)
Lemma line_fields (cells : list string) :
  Forall (fun x => has_char pipe x = false) cells ->
  map trim (slice_1_m1 (split pipe (table_line cells))) = map trim cells.
Proof.
  intros H. unfold table_line. cbn [append split]. rewrite split_cells by exact H.
  cbn [Ascii.eqb pipe slice_1_m1]. cbn. rewrite removelast_last, map_map.
  apply map_ext. apply trim_pad.
Qed.

Lemma startsWith_char (a b : ascii) (r : string) :
  startsWith (String a r) (String b "") = Ascii.eqb b a.
Proof.
  unfold startsWith. cbn. destruct (ascii_dec b a) as [->|H].
  - rewrite Ascii.eqb_refl. destruct r; reflexivity.
  - symmetry. apply Ascii.eqb_neq. exact H.
Qed.

Lemma table_line_starts (cells : list string) :
  startsWith (table_line cells) "|" = true /\ startsWith (table_line cells) "+" = false.
Proof. unfold table_line. cbn [append]. rewrite !startsWith_char. split; reflexivity. Qed.

Lemma table_line_no_nl (cells : list string) :
  Forall (fun x => has_char nl x = false) cells -> has_char nl (table_line cells) = false.
Proof.
  intros H. unfold table_line. cbn.
  induction H as [|c cs Hc _ IH]; [reflexivity|]. cbn [cells_text].
  rewrite !has_char_app, Hc. exact IH.
Qed.

Lemma cells_text_letter (cells : list string) :
  has_letter (cells_text cells) = existsb has_letter cells.
Proof.
  induction cells as [|c cs IH]; [reflexivity|]. cbn [cells_text existsb].
  rewrite !has_letter_app, IH. cbn. destruct (has_letter c); reflexivity.
Qed.

Lemma table_line_letter (cells : list string) :
  has_letter (table_line cells) = existsb has_letter cells.
Proof. unfold table_line. rewrite has_letter_app, cells_text_letter. reflexivity. Qed.

Lemma nonblank_start (a : ascii) (r : string) : is_ws a = false -> trim (String a r) <> "".
Proof.
  intros H. unfold trim. cbn [trim_start]. rewrite H. cbn [trim_end].
  rewrite H, andb_false_r. discriminate.
Qed.

Lemma filter_keep {A} (f : A -> bool) (l : list A) :
  Forall (fun x => f x = true) l -> filter f l = l.
Proof.
  induction 1 as [|x l Hx _ IH]; [reflexivity|]. cbn. rewrite Hx, IH. reflexivity.
Qed.

Lemma fold_obj_put_spec (cols : list string) :
  forall (vals : list string) (acc : list (string * value) * bool),
  List.length vals = List.length cols ->
  let fs := fst (fold_left (fun o cv => obj_put (fst cv) (cell_value (snd cv)) o)
                   (combine cols vals) acc) in
  (forall c, c <> "__proto__" -> In c cols \/ (exists x, assoc c (fst acc) = Some x) ->
     exists x, assoc c fs = Some x)
  /\ (forall j c, nth_error cols j = Some c -> c <> "__proto__" ->
        (forall j' c', j < j' -> nth_error cols j' = Some c' -> c' <> c) ->
        assoc c fs = Some (cell_value (nth j vals "")))
  /\ (forall k x, assoc k fs = Some x ->
        (In k cols /\ exists v, In v vals /\ x = cell_value v) \/ assoc k (fst acc) = Some x)
  /\ (forall k, k <> "__proto__" -> ~ In k cols -> assoc k fs = assoc k (fst acc)).
Proof.
  induction cols as [|c0 cs IH]; intros vals acc Hlen; cbv zeta.
  - destruct vals; [|discriminate]. cbn. split; [|split; [|split]].
    + intros c _ [[]|H]. exact H.
    + intros [|j] c H; discriminate.
    + intros k x H. right. exact H.
    + reflexivity.
  - destruct vals as [|v0 vs]; [discriminate|]. cbn in Hlen. injection Hlen as Hlen.
    cbn [combine fold_left fst snd].
    destruct (IH vs (obj_put c0 (cell_value v0) acc) Hlen) as (H1 & H2 & H3 & H4).
    split; [|split; [|split]].
    + intros c Hp Hc. apply H1; [exact Hp|].
      rewrite assoc_obj_put by exact Hp.
      destruct (String.eqb_spec c0 c) as [->|Hne].
      * right. exists (cell_value v0). reflexivity.
      * destruct Hc as [[Heq|Hin]|Hacc]; [congruence|left; exact Hin|right; exact Hacc].
    + intros [|j] c Hj Hp Hlast; cbn in Hj.
      * injection Hj as <-.
        destruct (in_dec string_dec c0 cs) as [Hin|Hn].
        -- exfalso. apply In_nth_error in Hin as (j' & Hj').
           apply (Hlast (S j') c0); [lia | exact Hj' | reflexivity].
        -- rewrite (H4 c0 Hp Hn), assoc_obj_put, String.eqb_refl by exact Hp. reflexivity.
      * apply H2; [exact Hj|exact Hp|]. intros j' c' Hlt Hj'. apply (Hlast (S j') c'); [lia | exact Hj'].
    + intros k x Hk. destruct (H3 k x Hk) as [(Hin & v & Hv & ->)|Hacc].
      * left. split; [right; exact Hin|]. exists v. split; [right; exact Hv|reflexivity].
      * destruct (assoc_obj_put_cases k c0 (cell_value v0) acc) as [E|(-> & E)].
        -- right. rewrite <- E. exact Hacc.
        -- left. split; [left; reflexivity|]. exists v0. split; [left; reflexivity|].
           rewrite E in Hacc. injection Hacc as <-. reflexivity.
    + intros k Hp Hk. rewrite H4 by (try exact Hp; intros Hin; apply Hk; right; exact Hin).
      rewrite assoc_obj_put by exact Hp.
      destruct (String.eqb_spec c0 k) as [E|_]; [|reflexivity].
      exfalso. apply Hk. left. exact E.
Qed.

Lemma build_row_expected (cols cells : list string) :
  List.length cells = List.length cols ->
  Forall (fun c => c <> "__proto__") cols ->
  expected_row cols cells (build_row cols (map trim cells)).
Proof.
  intros Hlen Hp. unfold build_row, expected_row. rewrite Forall_forall in Hp.
  destruct (fold_obj_put_spec cols (map trim cells) ([], true)
              ltac:(rewrite length_map; exact Hlen)) as (H1 & H2 & _).
  eexists. split; [reflexivity|]. split.
  - intros c Hc. apply H1; [apply Hp; exact Hc|left; exact Hc].
  - intros j c Hj Hlast. rewrite (H2 j c Hj (Hp c (nth_error_In _ _ Hj)) Hlast).
    change "" with (trim "") at 1. rewrite map_nth. reflexivity.
Qed.

(** The data loop over the data lines, the closing border and the tail. *)
Lemma scan_table_rows (cols : list string) (rows : list (list string))
  (border : string) (tl : list string) :
  startsWith border "+" = true ->
  Forall (Forall (fun x => has_char pipe x = false)) rows ->
  (tl = [] \/ exists f r, tl = f :: r /\ startsWith f "|" = false /\ startsWith f "+" = false) ->
  scan_rows cols (map table_line rows ++ border :: tl)
  = map (fun r => build_row cols (map trim r))
        (filter (fun r => Nat.eqb (List.length r) (List.length cols)) rows).
Proof.
  intros Hb Hrows Htl. induction Hrows as [|r rs Hr _ IH].
  - cbn. rewrite Hb. destruct Htl as [->|(f & r & -> & H1 & H2)]; [reflexivity|].
    cbn. rewrite H2, H1. reflexivity.
  - cbn [map app scan_rows filter].
    destruct (table_line_starts r) as [S1 S2]. rewrite S2, S1. cbn [negb].
    rewrite (line_fields r Hr), length_map.
    destruct (Nat.eqb (List.length r) (List.length cols)); [|exact IH].
    cbn [map]. rewrite IH. reflexivity.
Qed.

(** C5 (code bug): a header column named [__proto__] is lost.  The row
    is filled by [row[colName] = value] on a fresh [{}]; for [__proto__]
    that write reaches the [Object.prototype.__proto__] setter, which
    ignores a string, so the row has no [__proto__] entry and does not hold
    every column name. *)
Theorem ascii_table_proto_column_dropped :
  parseAsciiTableResult (table "+----+-----------+" ["id"; "__proto__"] [["1"; "x"]] "")
    = Ret (Obj [("columns", Arr [Obj [("name", Str "id")]; Obj [("name", Str "__proto__")]]);
                ("rows", Arr [Obj [("id", Str "1")]]);
                ("rowsAffected", Num 1)])
  /\ ~ expected_row ["id"; "__proto__"] ["1"; "x"] (Obj [("id", Str "1")]).
Proof.
  split; [vm_compute; reflexivity|].
  intros (fs & E & Hall & _). injection E as <-.
  destruct (Hall "__proto__") as [x Hx]; [right; left; reflexivity|]. discriminate.
Qed.

(** Any table padding: on a table whose border lines start with [+], whose
    header cells (each padded with any spaces) trim to non-empty names other
    than [__proto__] and hold no [|], one of them a letter, whose data lines
    [| cell | ... |] hold no [|], followed by nothing or a summary line,
    [parseAsciiTableResult] returns the trimmed header names as columns and
    exactly one row per data line with as many cells as there are columns,
    in order: each row holds every column name, with [<nil>]/[NULL]/empty
    cells as [null] and other cells as their trimmed text, and
    [rowsAffected] is that number of rows; data lines with another number of
    cells are dropped. *)
Theorem ascii_table_parse_padded (border : string) (cols : list string)
  (rows : list (list string)) (tail : string)
  (Hb : startsWith border "+" = true) (Hbn : has_char nl border = false)
  (Hcols : Forall (fun c => trim c <> "" /\ trim c <> "__proto__" /\ has_char pipe c = false
                            /\ has_char nl c = false) cols)
  (Hletter : existsb has_letter cols = true)
  (Hcells : Forall (Forall (fun x => has_char pipe x = false /\ has_char nl x = false)) rows)
  (Htail : tail = "" \/ exists f rest, tail = (f ++ NL ++ rest)%string
             /\ has_char nl f = false /\ trim f <> ""
             /\ startsWith f "|" = false /\ startsWith f "+" = false) :
  exists outs,
    parseAsciiTableResult (table border cols rows tail)
      = Ret (Obj [("columns", Arr (map (fun name => Obj [("name", Str name)]) (map trim cols)));
                  ("rows", Arr outs);
                  ("rowsAffected", Num (Z.of_nat (List.length outs)))])
    /\ List.length outs
       = List.length (filter (fun r => Nat.eqb (List.length r) (List.length cols)) rows)
    /\ Forall2 (expected_row (map trim cols))
         (filter (fun r => Nat.eqb (List.length r) (List.length cols)) rows) outs.
Proof.
  set (names := map trim cols).
  assert (Hln : List.length names = List.length cols) by apply length_map.
  assert (Hp : Forall (fun c => c <> "__proto__") names).
  { apply Forall_map. eapply Forall_impl; [|exact Hcols]. cbn. tauto. }
  set (keep := fun r : list string => Nat.eqb (List.length r) (List.length cols)).
  exists (map (fun r => build_row names (map trim r)) (filter keep rows)).
  split; [|split].
  3: { induction rows as [|r rs IH]; cbn; [constructor|].
       inversion Hcells as [|? ? Hr Hrs]; subst.
       destruct (keep r) eqn:E; cbn [map].
       - constructor; [|exact (IH Hrs)].
         apply build_row_expected; [|exact Hp].
         rewrite Hln. apply Nat.eqb_eq. exact E.
       - exact (IH Hrs). }
  2: { rewrite length_map. reflexivity. }
  destruct border as [|b0 b']; [discriminate|].
  assert (Hb0 : b0 = "+"%char) by (rewrite startsWith_char in Hb; apply Ascii.eqb_eq in Hb; congruence).
  subst b0.
  set (border := String "+" b') in *.
  assert (Hnl : Forall (fun l => has_char nl l = false)
                  ([border; table_line cols; border] ++ map table_line rows ++ [border])).
  { apply Forall_app. split; [repeat constructor; try exact Hbn|].
    - apply table_line_no_nl. eapply Forall_impl; [|exact Hcols]. cbn. tauto.
    - apply Forall_app. split; [|repeat constructor; exact Hbn].
      apply Forall_map. eapply Forall_impl; [|exact Hcells]. intros r Hr.
      apply table_line_no_nl. eapply Forall_impl; [|exact Hr]. cbn. tauto. }
  assert (Hblank : Forall (fun l => negb (String.eqb (trim l) "") = true)
                  ([border; table_line cols; border] ++ map table_line rows ++ [border])).
  { assert (Hl : forall cells, negb (String.eqb (trim (table_line cells)) "") = true).
    { intros cells. unfold table_line. cbn [append].
      destruct (String.eqb_spec (trim (String "|" (cells_text cells))) ""); [|reflexivity].
      exfalso. exact (nonblank_start "|" _ eq_refl e). }
    assert (Hbd : negb (String.eqb (trim border) "") = true).
    { destruct (String.eqb_spec (trim border) ""); [|reflexivity].
      exfalso. exact (nonblank_start "+" _ eq_refl e). }
    apply Forall_app. split; [repeat constructor; auto|].
    apply Forall_app. split; [apply Forall_map, Forall_forall; intros; apply Hl|].
    repeat constructor; exact Hbd. }
  assert (Htl : exists tl, filter (fun line => negb (String.eqb (trim line) "")) (split nl tail) = tl
            /\ (tl = [] \/ exists f r, tl = f :: r /\ startsWith f "|" = false
                                        /\ startsWith f "+" = false)).
  { destruct Htail as [->|(f & rest & -> & Hf1 & Hf2 & Hf3 & Hf4)].
    - exists []. split; [reflexivity|left; reflexivity].
    - eexists. split; [reflexivity|]. right.
      unfold NL. cbn [append]. rewrite split_sep by exact Hf1. cbn [filter].
      destruct (String.eqb_spec (trim f) ""); [contradiction|]. cbn [negb].
      eexists; eexists; split; [reflexivity|]. split; assumption. }
  destruct Htl as (tl & Htl & Htlf).
  unfold parseAsciiTableResult, table.
  replace (String.eqb (lines_text ([border; table_line cols; border] ++ map table_line rows ++ [border]) ++ tail) "")
    with false by reflexivity.
  rewrite split_lines by exact Hnl. rewrite filter_app, filter_keep by exact Hblank. rewrite Htl.
  cbn [app find_header].
  replace (startsWith border "|") with false by (unfold border; rewrite startsWith_char; reflexivity).
  cbn [andb].
  destruct (table_line_starts cols) as [S1 _]. rewrite S1, table_line_letter, Hletter.
  cbn [andb].
  assert (Hnames : filter (fun col => negb (String.eqb col ""))
                     (map trim (slice_1_m1 (split pipe (table_line cols)))) = names).
  { rewrite line_fields by (eapply Forall_impl; [|exact Hcols]; cbn; tauto).
    apply filter_keep. apply Forall_map. eapply Forall_impl; [|exact Hcols].
    intros c (Hc & _). destruct (String.eqb_spec (trim c) ""); [contradiction|reflexivity]. }
  rewrite Hnames.
  assert (Hscan : scan_rows names (border :: (map table_line rows ++ [border]) ++ tl)
                  = map (fun r => build_row names (map trim r)) (filter keep rows)).
  { cbn [scan_rows]. rewrite Hb. rewrite <- app_assoc. cbn [app].
    rewrite (scan_table_rows names rows border tl Hb
               ltac:(eapply Forall_impl; [|exact Hcells]; intros r Hr;
                     eapply Forall_impl; [|exact Hr]; cbn; tauto) Htlf).
    unfold keep. rewrite Hln. reflexivity. }
  rewrite Hscan. destruct names as [|n0 ns] eqn:En.
  - exfalso. destruct cols; [discriminate|discriminate].
  - reflexivity.
Qed.

Lemma ascii_table_parse_padded_witness :
  table "+----+------+-----+--------+--------+-------------+" ["ID"; "NAME"; "AGE"; "SWITCH"; " 1TO1 "; "CREATE TIME"]
    [[" 1"; "aaa "; "  3"; "      "; "shiben"; "<nil>      "]] ("1 rows in set" ++ NL)
    = "+----+------+-----+--------+--------+-------------+" ++ NL
      ++ "| ID | NAME | AGE | SWITCH |  1TO1  | CREATE TIME |" ++ NL
      ++ "+----+------+-----+--------+--------+-------------+" ++ NL
      ++ "|  1 | aaa  |   3 |        | shiben | <nil>       |" ++ NL
      ++ "+----+------+-----+--------+--------+-------------+" ++ NL ++ "1 rows in set" ++ NL
  /\ exists outs,
    parseAsciiTableResult
      (table "+----+------+-----+--------+--------+-------------+" ["ID"; "NAME"; "AGE"; "SWITCH"; " 1TO1 "; "CREATE TIME"]
         [[" 1"; "aaa "; "  3"; "      "; "shiben"; "<nil>      "]] ("1 rows in set" ++ NL))
      = Ret (Obj [("columns", Arr [Obj [("name", Str "ID")]; Obj [("name", Str "NAME")];
                                   Obj [("name", Str "AGE")]; Obj [("name", Str "SWITCH")];
                                   Obj [("name", Str "1TO1")]; Obj [("name", Str "CREATE TIME")]]);
                  ("rows", Arr outs); ("rowsAffected", Num (Z.of_nat (List.length outs)))])
    /\ List.length outs = 1.
Proof.
  split; [reflexivity|].
  destruct (ascii_table_parse_padded "+----+------+-----+--------+--------+-------------+"
              ["ID"; "NAME"; "AGE"; "SWITCH"; " 1TO1 "; "CREATE TIME"]
              [[" 1"; "aaa "; "  3"; "      "; "shiben"; "<nil>      "]]
              ("1 rows in set" ++ NL) eq_refl eq_refl
              ltac:(repeat constructor; vm_compute; discriminate) eq_refl
              ltac:(repeat constructor)
              ltac:(right; exists "1 rows in set", ""; repeat split;
                    [intros H; vm_compute in H; discriminate]))
    as (outs & H & Hl & _).
  exists outs. split; [exact H | exact Hl].
Defined.

End AsciiTableProps.

Section ConfigExtraProps.
Import ConfigStore ConfigStoreSpec.

Lemma prefix_app (s t : string) : String.prefix s (s ++ t) = true.
Proof.
  induction s as [|a s IH]; cbn; [destruct t; reflexivity|].
  destruct (ascii_dec a a) as [_|H]; [exact IH|contradiction].
Qed.

Lemma alias_key_starts (a : string) : Text.startsWith (AliasPrefix ++ a) AliasPrefix = true.
Proof. apply prefix_app. Qed.

Lemma alias_key_neq (k a : string) :
  Text.startsWith k AliasPrefix = false -> k <> AliasPrefix ++ a.
Proof. intros H ->. rewrite alias_key_starts in H. discriminate. Qed.

Lemma mget_mupdate_some (k : string) (x : stored) (m : memento) :
  mget k (mupdate k (Some x) m) = Some x.
Proof.
  induction m as [|[k' y] r IH]; cbn; [rewrite String.eqb_refl; reflexivity|].
  destruct (String.eqb k' k) eqn:E; cbn; [rewrite String.eqb_refl; reflexivity|].
  rewrite E. exact IH.
Qed.

Lemma mget_mupdate_other (k k' : string) (v : option stored) (m : memento) :
  k <> k' -> mget k' (mupdate k v m) = mget k' m.
Proof.
  intros Hne. assert (E1 : String.eqb k k' = false) by (apply String.eqb_neq; exact Hne).
  induction m as [|[k0 y] r IH]; cbn.
  - destruct v; cbn; [rewrite E1|]; reflexivity.
  - destruct (String.eqb k0 k) eqn:E.
    + apply String.eqb_eq in E. subst k0. rewrite E1.
      destruct v; cbn; [rewrite E1|]; reflexivity.
    + cbn. destruct (String.eqb k0 k'); [reflexivity|exact IH].
Qed.

Lemma mget_notin (k : string) (m : memento) : ~ In k (map fst m) -> mget k m = None.
Proof.
  induction m as [|[k' y] r IH]; cbn; intros Hn; [reflexivity|].
  destruct (String.eqb k' k) eqn:E.
  - apply String.eqb_eq in E. exfalso. apply Hn. left. exact E.
  - apply IH. intros H. apply Hn. right. exact H.
Qed.

Lemma mget_mupdate_none (k : string) (m : memento) :
  NoDup (map fst m) -> mget k (mupdate k None m) = None.
Proof.
  induction m as [|[k' y] r IH]; cbn; intros Hnd; [reflexivity|].
  inversion Hnd as [|? ? Hn Hr]; subst.
  destruct (String.eqb k' k) eqn:E.
  - apply String.eqb_eq in E. subst. apply mget_notin. exact Hn.
  - cbn. rewrite E. apply IH. exact Hr.
Qed.

Lemma mupdate_keys (k k' : string) (v : option stored) (m : memento) :
  In k' (map fst (mupdate k v m)) -> k' = k \/ In k' (map fst m).
Proof.
  induction m as [|[k0 y] r IH]; cbn.
  - destruct v; cbn; [|tauto]. intros [H|[]]. left. symmetry. exact H.
  - destruct (String.eqb k0 k) eqn:E.
    + apply String.eqb_eq in E. subst. destruct v; cbn; [|tauto].
      intros [H|H]; [left; symmetry; exact H|right; right; exact H].
    + cbn. intros [H|H]; [right; left; exact H|]. destruct (IH H); tauto.
Qed.

Lemma mupdate_NoDup (k : string) (v : option stored) (m : memento) :
  NoDup (map fst m) -> NoDup (map fst (mupdate k v m)).
Proof.
  induction m as [|[k0 y] r IH]; cbn; intros Hnd.
  - destruct v; cbn; constructor; [intros []|constructor].
  - inversion Hnd as [|? ? Hn Hr]; subst.
    destruct (String.eqb k0 k) eqn:E.
    + apply String.eqb_eq in E. subst. destruct v; cbn; [constructor|]; assumption.
    + cbn. constructor; [|apply IH; exact Hr].
      intros Hin. destruct (mupdate_keys _ _ _ _ Hin) as [->|H].
      * rewrite String.eqb_refl in E. discriminate.
      * contradiction.
Qed.

Lemma mupdate_In (k k' : string) (o : option stored) (v : stored) (m : memento) :
  In (k', v) (mupdate k o m) -> (k' = k /\ o = Some v) \/ In (k', v) m.
Proof.
  induction m as [|[k0 y] r IH]; cbn.
  - destruct o; cbn; [|tauto]. intros [H|[]]. injection H as -> ->. tauto.
  - destruct (String.eqb k0 k) eqn:E.
    + apply String.eqb_eq in E. subst. destruct o as [x|]; cbn; [|tauto].
      intros [H|H]; [injection H as -> ->; tauto|tauto].
    + cbn. intros [H|H]; [tauto|]. destruct (IH H); tauto.
Qed.

Lemma mupdate_app (k : string) (v : option stored) (l1 l2 : memento) :
  ~ In k (map fst l1) -> mupdate k v (l1 ++ l2)%list = (l1 ++ mupdate k v l2)%list.
Proof.
  induction l1 as [|[k0 y] r IH]; cbn; intros Hn; [reflexivity|].
  destruct (String.eqb k0 k) eqn:E.
  - apply String.eqb_eq in E. exfalso. apply Hn. left. exact E.
  - rewrite IH; [reflexivity|]. intros H. apply Hn. right. exact H.
Qed.

Lemma mget_filter (p : string -> bool) (k : string) (m : memento) :
  mget k (filter (fun kv => p (fst kv)) m) = if p k then mget k m else None.
Proof.
  induction m as [|[k0 y] r IH]; cbn; [destruct (p k); reflexivity|].
  destruct (p k0) eqn:P; cbn; destruct (String.eqb k0 k) eqn:E; try exact IH;
    apply String.eqb_eq in E; subst; rewrite P; [reflexivity|rewrite IH, P; reflexivity].
Qed.

Lemma clear_loop (post pre : memento) :
  NoDup (map fst (pre ++ post)%list) ->
  fold_left (fun m key => if Text.startsWith key AliasPrefix then mupdate key None m else m)
    (map fst post)
    (filter (fun kv => negb (Text.startsWith (fst kv) AliasPrefix)) pre ++ post)%list
  = filter (fun kv => negb (Text.startsWith (fst kv) AliasPrefix)) (pre ++ post)%list.
Proof.
  revert pre. induction post as [|[k v] post IH]; intros pre Hnd.
  - cbn. rewrite !app_nil_r. reflexivity.
  - cbn [map fold_left fst].
    assert (Hpre : ~ In k (map fst (filter (fun kv => negb (Text.startsWith (fst kv) AliasPrefix)) pre))).
    { intros Hin. rewrite map_app in Hnd. apply NoDup_remove_2 in Hnd. apply Hnd.
      apply in_or_app. left. apply in_map_iff in Hin as [[k1 v1] [E Hin]].
      apply filter_In in Hin as [Hin _]. apply in_map_iff.
      exists (k1, v1). split; [exact E|exact Hin]. }
    replace (pre ++ (k, v) :: post)%list with ((pre ++ [(k, v)]) ++ post)%list in *
      by (rewrite <- app_assoc; reflexivity).
    rewrite <- (IH (pre ++ [(k, v)])%list Hnd). rewrite filter_app. cbn [filter fst].
    destruct (Text.startsWith k AliasPrefix) eqn:S; cbn [negb].
    + rewrite mupdate_app by exact Hpre. cbn. rewrite String.eqb_refl, app_nil_r. reflexivity.
    + rewrite <- app_assoc. reflexivity.
Qed.

Lemma clear_eq (m : memento) :
  NoDup (map fst m) ->
  clearConnectionConfig m
  = filter (fun kv => negb (Text.startsWith (fst kv) AliasPrefix))
      (mupdate DefaultConnectionConfigKey None m).
Proof.
  intros Hnd. unfold clearConnectionConfig, mkeys.
  pose proof (clear_loop (mupdate DefaultConnectionConfigKey None m) []
                (mupdate_NoDup _ None m Hnd)) as H.
  cbn in H. exact H.
Qed.

Lemma collect_no_alias (m : memento) (d : option stored) (ks : list string) :
  Forall (fun k => Text.startsWith k AliasPrefix = false) ks -> collect_configs m d ks = [].
Proof.
  induction 1 as [|k ks Hk _ IH]; cbn; [reflexivity|]. rewrite Hk. exact IH.
Qed.

Lemma first_config_no_alias (m : memento) (ks : list string) :
  Forall (fun k => Text.startsWith k AliasPrefix = false) ks -> first_config m ks = None.
Proof.
  induction 1 as [|k ks Hk _ IH]; cbn; [reflexivity|]. rewrite Hk. exact IH.
Qed.

Lemma filter_keys_no_alias (m : memento) :
  Forall (fun k => Text.startsWith k AliasPrefix = false)
    (map fst (filter (fun kv => negb (Text.startsWith (fst kv) AliasPrefix)) m)).
Proof.
  apply Forall_forall. intros k Hin. apply in_map_iff in Hin as [[k1 v1] [E Hin]].
  apply filter_In in Hin as [_ H]. cbn in *. subst. apply negb_true_iff. exact H.
Qed.

(** [clearConnectionConfig] on a store without duplicate keys removes
    every alias key and the default pointer and keeps every other key;
    afterwards no config is listed and there is no current config. *)
Theorem clearConnectionConfig_spec (m : memento) (Hnd : NoDup (mkeys m)) :
  (forall k, mget k (clearConnectionConfig m)
             = if Text.startsWith k AliasPrefix || String.eqb k DefaultConnectionConfigKey
               then None else mget k m)
  /\ getConnectionConfigs (clearConnectionConfig m) = []
  /\ getCurrentConnectionConfig (clearConnectionConfig m) = None.
Proof.
  unfold mkeys in Hnd. rewrite (clear_eq m Hnd).
  set (m' := filter _ _).
  assert (Hk : forall k, mget k m' = if Text.startsWith k AliasPrefix || String.eqb k DefaultConnectionConfigKey
                                      then None else mget k m).
  { intros k. unfold m'.
    rewrite (mget_filter (fun k => negb (Text.startsWith k AliasPrefix))).
    destruct (Text.startsWith k AliasPrefix); cbn; [reflexivity|].
    destruct (String.eqb k DefaultConnectionConfigKey) eqn:E.
    - apply String.eqb_eq in E. subst. apply mget_mupdate_none. exact Hnd.
    - apply mget_mupdate_other. intros H. rewrite <- H, String.eqb_refl in E. discriminate. }
  split; [exact Hk|]. split.
  - unfold getConnectionConfigs, mkeys. apply collect_no_alias. apply filter_keys_no_alias.
  - unfold getCurrentConnectionConfig. rewrite (Hk DefaultConnectionConfigKey). cbn.
    unfold mkeys. apply first_config_no_alias. apply filter_keys_no_alias.
Qed.


Lemma string_app_inj (p x y : string) : (p ++ x)%string = (p ++ y)%string -> x = y.
Proof. induction p as [|a p IH]; cbn; [tauto|]. intros H. injection H. exact IH. Qed.

Lemma default_not_alias : Text.startsWith DefaultConnectionConfigKey AliasPrefix = false.
Proof. reflexivity. Qed.

Lemma In_mget (k : string) (v : stored) (m : memento) :
  NoDup (map fst m) -> In (k, v) m -> mget k m = Some v.
Proof.
  induction m as [|[k0 y] r IH]; cbn; [tauto|]. intros Hnd Hin.
  inversion Hnd as [|? ? Hn Hr]; subst.
  destruct Hin as [E|Hin].
  - injection E as -> ->. rewrite String.eqb_refl. reflexivity.
  - destruct (String.eqb k0 k) eqn:E.
    + apply String.eqb_eq in E. subst. exfalso. apply Hn.
      apply in_map_iff. exists (k, v). split; [reflexivity|exact Hin].
    + apply IH; assumption.
Qed.

Lemma NoDup_filter_keys (p : string * stored -> bool) (m : memento) :
  NoDup (map fst m) -> NoDup (map fst (filter p m)).
Proof.
  induction m as [|[k v] r IH]; cbn; intros Hnd; [constructor|].
  inversion Hnd as [|? ? Hn Hr]; subst.
  destruct (p (k, v)); cbn; [|apply IH; exact Hr].
  constructor; [|apply IH; exact Hr].
  intros Hin. apply Hn. apply in_map_iff in Hin as [[k1 v1] [E Hin]].
  apply filter_In in Hin as [Hin _]. apply in_map_iff. exists (k1, v1). split; [exact E|exact Hin].
Qed.

Lemma mget_In (k : string) (v : stored) (m : memento) : mget k m = Some v -> In (k, v) m.
Proof.
  induction m as [|[k0 y] r IH]; cbn; [discriminate|].
  destruct (String.eqb k0 k) eqn:E; intros H.
  - apply String.eqb_eq in E. subst. injection H as ->. left. reflexivity.
  - right. apply IH. exact H.
Qed.

Lemma store_wf_op (m : memento) (o : store_op) : store_wf m -> store_wf (run_store_op m o).
Proof.
  intros [Hnd Hal]. unfold mkeys in Hnd.
  destruct o as [c|a|a|]; cbn [run_store_op].
  - split; [apply mupdate_NoDup; exact Hnd|].
    intros k v Hin Hk. destruct (mupdate_In _ _ _ _ _ Hin) as [[-> E]|H].
    + injection E as <-. exists c. split; reflexivity.
    + exact (Hal k v H Hk).
  - split; [apply mupdate_NoDup; exact Hnd|].
    intros k v Hin Hk. destruct (mupdate_In _ _ _ _ _ Hin) as [[_ E]|H]; [discriminate|].
    exact (Hal k v H Hk).
  - split; [apply mupdate_NoDup; exact Hnd|].
    intros k v Hin Hk. destruct (mupdate_In _ _ _ _ _ Hin) as [[-> _]|H].
    + rewrite default_not_alias in Hk. discriminate.
    + exact (Hal k v H Hk).
  - rewrite (clear_eq m Hnd). split.
    + unfold mkeys. apply NoDup_filter_keys. apply mupdate_NoDup. exact Hnd.
    + intros k v Hin. apply filter_In in Hin as [Hin _].
      destruct (mupdate_In _ _ _ _ _ Hin) as [[_ E]|H]; [discriminate|].
      exact (Hal k v H).
Qed.

Lemma store_wf_run (ops : list store_op) : store_wf (run_store [] ops).
Proof.
  unfold run_store.
  assert (H : forall m, store_wf m -> store_wf (fold_left run_store_op ops m)).
  { induction ops as [|o ops IH]; intros m Hm; cbn; [exact Hm|]. apply IH. apply store_wf_op. exact Hm. }
  apply H. split; [constructor|]. intros k v [].
Qed.

Lemma collect_configs_spec (m l : memento) (d : option stored) :
  NoDup (map fst l) ->
  (forall k v, In (k, v) l -> mget k m = Some v) ->
  (forall k v, In (k, v) l -> Text.startsWith k AliasPrefix = true ->
     exists c, v = VConfig c /\ k = (AliasPrefix ++ alias c)%string) ->
  map config (collect_configs m d (map fst l))
    = map snd (filter (fun kv => Text.startsWith (fst kv) AliasPrefix) l)
  /\ filter selected (collect_configs m d (map fst l))
     = match d with
       | Some (VStr a) =>
           if String.eqb a "" then [] else
           match mget (AliasPrefix ++ a) l with Some v => [mkEntry true v] | None => [] end
       | _ => []
       end.
Proof.
  induction l as [|[k v] l IH]; intros Hnd Hm Hal.
  - cbn. split; [reflexivity|]. destruct d as [[c|a]|]; try reflexivity.
    destruct (String.eqb a ""); reflexivity.
  - inversion Hnd as [|? ? Hn Hr]; subst.
    destruct IH as [IH1 IH2]; [exact Hr| intros k' v' H; apply Hm; right; exact H
                              | intros k' v' H; apply Hal; right; exact H|].
    cbn [map collect_configs fst filter].
    destruct (Text.startsWith k AliasPrefix) eqn:S.
    + destruct (Hal k v (or_introl eq_refl) S) as [c [-> Hk]].
      rewrite (Hm k (VConfig c) (or_introl eq_refl)). cbn [stored_truthy map config snd].
      split; [rewrite IH1; reflexivity|].
      cbn [filter selected]. rewrite IH2.
      destruct d as [[c'|a]|]; cbn [is_selected]; try (rewrite andb_false_r); try reflexivity.
      cbn [stored_alias stored_truthy].
      destruct (String.eqb a "") eqn:Ea; cbn [negb andb]; [reflexivity|].
      cbn [mget]. destruct (String.eqb (alias c) a) eqn:Eal.
      * apply String.eqb_eq in Eal. subst k a. rewrite String.eqb_refl.
        rewrite mget_notin by exact Hn. reflexivity.
      * assert (Ek : String.eqb k (AliasPrefix ++ a) = false).
        { apply String.eqb_neq. intros E. subst k. apply string_app_inj in E.
          rewrite E, String.eqb_refl in Eal. discriminate. }
        rewrite Ek. reflexivity.
    + cbn [negb]. split; [exact IH1|]. rewrite IH2.
      destruct d as [[c'|a]|]; try reflexivity.
      destruct (String.eqb a ""); [reflexivity|]. cbn [mget].
      assert (Ek : String.eqb k (AliasPrefix ++ a) = false).
      { apply String.eqb_neq. apply alias_key_neq. exact S. }
      rewrite Ek. reflexivity.
Qed.

(** In every store reached by the commands, [getConnectionConfigs] lists
    exactly the stored configs in storage order, and the entry marked
    selected is the one the non-empty default alias names, if it exists. *)
Theorem getConnectionConfigs_reachable (ops : list store_op) :
  let m := run_store [] ops in
  map config (getConnectionConfigs m)
    = map snd (filter (fun kv => Text.startsWith (fst kv) AliasPrefix) m)
  /\ filter selected (getConnectionConfigs m)
     = match mget DefaultConnectionConfigKey m with
       | Some (VStr a) =>
           if String.eqb a "" then [] else
           match getConnectionConfig m a with Some v => [mkEntry true v] | None => [] end
       | _ => []
       end.
Proof.
  cbv zeta. destruct (store_wf_run ops) as [Hnd Hal]. unfold mkeys in Hnd.
  unfold getConnectionConfigs, getConnectionConfig, mkeys.
  apply collect_configs_spec; [exact Hnd| |exact Hal].
  intros k v H. apply In_mget; assumption.
Qed.

(** [updateConnectionConfig] then [getConnectionConfig] on the same alias
    returns the config written; every other key is unchanged. *)
Theorem update_then_get (m : memento) (c : ConnectionConfig) :
  getConnectionConfig (updateConnectionConfig m c) (alias c) = Some (VConfig c)
  /\ (forall k, k <> (AliasPrefix ++ alias c)%string ->
        mget k (updateConnectionConfig m c) = mget k m).
Proof.
  split; [apply mget_mupdate_some|]. intros k Hk. apply mget_mupdate_other. congruence.
Qed.

(** In a reachable store, [removeConnectionConfig] makes the alias
    unreadable, leaves every other key alone and keeps the store well formed
    (unique keys, each alias key holding the config of that alias). *)
Theorem remove_then_get (ops : list store_op) (a : string) :
  let m := run_store [] ops in
  getConnectionConfig (removeConnectionConfig m a) a = None
  /\ (forall k, k <> (AliasPrefix ++ a)%string ->
        mget k (removeConnectionConfig m a) = mget k m)
  /\ store_wf (removeConnectionConfig m a).
Proof.
  cbv zeta. pose proof (store_wf_run ops) as Hwf. destruct Hwf as [Hnd Hal].
  split; [apply mget_mupdate_none; exact Hnd|]. split.
  - intros k Hk. apply mget_mupdate_other. congruence.
  - apply (store_wf_op _ (OpRemove a)). split; assumption.
Qed.

(** The update command on an existing alias with a non-empty new data
    source name stores the config with that name and the old driver and
    changes no other key; a dismissed or empty input leaves the store as is. *)
Theorem updateConnectionConfigCommand_spec (ops : list store_op) (a d : string)
  (c : ConnectionConfig) :
  let m := run_store [] ops in
  getConnectionConfig m a = Some (VConfig c) -> d <> "" ->
  getConnectionConfig (updateConnectionConfigCommand (Some a) (Some d) m) a
    = Some (VConfig (mkConfig a (driver c) d))
  /\ (forall k, k <> (AliasPrefix ++ a)%string ->
        mget k (updateConnectionConfigCommand (Some a) (Some d) m) = mget k m)
  /\ updateConnectionConfigCommand (Some a) None m = m
  /\ updateConnectionConfigCommand (Some a) (Some "") m = m.
Proof.
  cbv zeta. intros Hget Hd. destruct (store_wf_run ops) as [Hnd Hal].
  assert (Ha : alias c = a).
  { unfold getConnectionConfig in Hget.
    assert (Hin : In ((AliasPrefix ++ a)%string, VConfig c) (run_store [] ops)).
    { apply mget_In. exact Hget. }
    destruct (Hal _ _ Hin (alias_key_starts a)) as [c' [E1 E2]].
    injection E1 as <-. symmetry. apply (string_app_inj _ _ _ E2). }
  unfold updateConnectionConfigCommand. rewrite Hget. cbn [stored_truthy negb].
  assert (Ed : String.eqb d "" = false) by (apply String.eqb_neq; exact Hd).
  rewrite Ed. rewrite Ha.
  split; [apply mget_mupdate_some|]. split; [|split; reflexivity].
  intros k Hk. apply mget_mupdate_other. intros E. apply Hk. rewrite <- E. reflexivity.
Qed.

(** The add command with a driver, a non-empty name and a non-empty
    connection string stores that config under the name and changes no
    other key; a dismissed or empty input at any step leaves the store as is. *)
Theorem addConnectionConfigCommand_spec (m : memento) (d n cs : string) :
  n <> "" -> cs <> "" ->
  getConnectionConfig (addConnectionConfigCommand (Some d) (Some n) (Some cs) m) n
    = Some (VConfig (mkConfig n d cs))
  /\ (forall k, k <> (AliasPrefix ++ n)%string ->
        mget k (addConnectionConfigCommand (Some d) (Some n) (Some cs) m) = mget k m)
  /\ (forall n' cs', addConnectionConfigCommand None n' cs' m = m)
  /\ (forall cs', addConnectionConfigCommand (Some d) None cs' m = m)
  /\ (forall cs', addConnectionConfigCommand (Some d) (Some "") cs' m = m)
  /\ addConnectionConfigCommand (Some d) (Some n) None m = m
  /\ addConnectionConfigCommand (Some d) (Some n) (Some "") m = m.
Proof.
  intros Hn Hcs.
  assert (En : String.eqb n "" = false) by (apply String.eqb_neq; exact Hn).
  assert (Ec : String.eqb cs "" = false) by (apply String.eqb_neq; exact Hcs).
  unfold addConnectionConfigCommand. rewrite En, Ec.
  split; [apply (mget_mupdate_some _ (VConfig (mkConfig n d cs)))|].
  split; [intros k Hk; apply mget_mupdate_other; intros E; apply Hk; rewrite <- E; reflexivity|].
  repeat split.
Qed.

Lemma clearConnectionConfig_spec_witness :
  NoDup (mkeys (run_store [] [OpUpdate (mkConfig "a" "mysql" "dsn"); OpSelect "a"]))
  /\ getConnectionConfigs
       (clearConnectionConfig (run_store [] [OpUpdate (mkConfig "a" "mysql" "dsn"); OpSelect "a"])) = [].
Proof.
  assert (H : NoDup (mkeys (run_store [] [OpUpdate (mkConfig "a" "mysql" "dsn"); OpSelect "a"]))).
  { vm_compute. constructor; [intros [E|[]]; discriminate|]. constructor; [intros []|constructor]. }
  split; [exact H|]. apply (clearConnectionConfig_spec _ H).
Defined.

Lemma updateConnectionConfigCommand_spec_witness :
  getConnectionConfig (updateConnectionConfigCommand (Some "a") (Some "new")
    (run_store [] [OpUpdate (mkConfig "a" "mysql" "dsn")])) "a"
    = Some (VConfig (mkConfig "a" "mysql" "new")).
Proof.
  apply (updateConnectionConfigCommand_spec [OpUpdate (mkConfig "a" "mysql" "dsn")] "a" "new"
           (mkConfig "a" "mysql" "dsn")); [vm_compute; reflexivity|discriminate].
Defined.

Lemma addConnectionConfigCommand_spec_witness :
  getConnectionConfig (addConnectionConfigCommand (Some "mysql") (Some "a") (Some "dsn") []) "a"
    = Some (VConfig (mkConfig "a" "mysql" "dsn")).
Proof.
  apply (addConnectionConfigCommand_spec [] "mysql" "a" "dsn"); discriminate.
Defined.
End ConfigExtraProps.


Section LspClientProps.
Import Supervisor Panel LspClient.

(** When the server is not running, [executeServerCommand] logs and throws
    ["Language server is not started"] and sends nothing. *)
Theorem executeServerCommand_not_running (command : string) (args : option (list value))
  (reply : outcome) (w : client) :
  isServerRunning (srv w) = false ->
  executeServerCommand command args reply w
    = (Throw "Language server is not started",
       log w "[ExecuteServerCommand] Language server is not started").
Proof.
  unfold isServerRunning, executeServerCommand.
  destruct (_client (srv w)); [|reflexivity].
  rewrite andb_true_r. intros ->. reflexivity.
Qed.

(** When the server is running, [executeServerCommand] sends one
    [workspace/executeCommand] request with the command and its arguments
    ([[]] when absent), returns the server's reply, leaves the client,
    running flag, restart count and client requests unchanged, and shows an
    error notification exactly when the request fails. *)
Theorem executeServerCommand_running (command : string) (args : option (list value))
  (reply : outcome) (w : client) (c : nat) :
  _client (srv w) = Some c -> _state (srv w) = true ->
  let (r, w') := executeServerCommand command args reply w in
  r = reply
  /\ rpcs w' = app (rpcs w) [SendRequest c "workspace/executeCommand"
                               (Obj [("command", Str command);
                                     ("arguments", Arr (match args with Some l => l | None => [] end))])]
  /\ _client (srv w') = Some c /\ _state (srv w') = true
  /\ _restartCount (srv w') = _restartCount (srv w) /\ sent (srv w') = sent (srv w)
  /\ shown (srv w') = app (shown (srv w))
       (match reply with
        | Ret _ => []
        | Throw e => ["Failed to execute server command " ++ command ++ ": " ++ e]
        end).
Proof.
  intros Hc Hs. unfold executeServerCommand. rewrite Hc, Hs. cbn [negb].
  set (w1 := match args with
             | Some ((_ :: _) as l) => log _ _
             | _ => _ end).
  assert (E1 : _client (srv w1) = Some c /\ _state (srv w1) = true
               /\ _restartCount (srv w1) = _restartCount (srv w) /\ sent (srv w1) = sent (srv w)
               /\ shown (srv w1) = shown (srv w) /\ rpcs w1 = rpcs w).
  { unfold w1. destruct args as [[|? ?]|]; cbn; rewrite ?Hc, ?Hs; repeat split. }
  destruct E1 as (Ec & Es & Er & Est & Esh & Erp).
  unfold forwardCommandToServer. rewrite Ec, Es.
  destruct reply as [v|e]; cbn.
  - destruct v; cbn; rewrite ?Ec, ?Es, ?Er, ?Est, ?Esh, ?Erp, ?app_nil_r; repeat split.
  - rewrite ?Ec, ?Es, ?Er, ?Est, ?Esh, ?Erp. repeat split.
Qed.

Lemma slen_app (x y : string) : String.length (x ++ y) = String.length x + String.length y.
Proof. induction x as [|a x IH]; cbn; [reflexivity|]. rewrite IH. reflexivity. Qed.

Lemma substring_length_le (n m : nat) (s : string) : String.length (substring n m s) <= m.
Proof.
  revert n m. induction s as [|a s IH]; intros [|n] [|m]; cbn; try lia.
  - specialize (IH 0 m). lia.
  - apply IH.
  - apply IH.
Qed.

(** The result line [executeServerCommand] logs is at most 546 characters
    long: longer results are cut to 500 characters. *)
Theorem result_line_bounded (result : value) :
  String.length (result_line result) <= 546.
Proof.
  unfold result_line. destruct (stringify_val result) as [t|]; [|cbn; lia].
  destruct (Nat.ltb 500 (String.length t)) eqn:E.
  - rewrite !slen_app. pose proof (substring_length_le 0 500 t). cbn [String.length]. lia.
  - apply Nat.ltb_ge in E. rewrite slen_app. cbn [String.length]. lia.
Qed.

(** From a fresh [SqlsClient], a successful [startServer] makes the server
    running with restart count 0, so configuration changes are sent; a
    following [stopServer] sends one stop, drops the client, and afterwards
    configuration changes are not sent and server commands throw. *)
Theorem server_lifecycle (s : sqls) (fresh : nat) (stop_ok : bool) (params : value)
  (l : list rpc) (command : string) (args : option (list value)) (reply : outcome) :
  _state s = false -> _client s = None ->
  let (r1, s1) := startServer true true fresh s in
  let (r2, s2) := stopServer stop_ok s1 in
  r1 = None /\ isServerRunning s1 = true /\ _restartCount s1 = 0
  /\ rpcs (didChangeConfiguration params (mkClient s1 l))
     = app l [SendNotification fresh "workspace/didChangeConfiguration" params]
  /\ sent s2 = app (sent s) [ClientStart fresh; ClientStop fresh]
  /\ _client s2 = None /\ isServerRunning s2 = false
  /\ didChangeConfiguration params (mkClient s2 l) = mkClient s2 l
  /\ fst (executeServerCommand command args reply (mkClient s2 l))
     = Throw "Language server is not started".
Proof.
  intros Hs Hc. unfold startServer. rewrite Hs, Hc. cbn.
  destruct stop_ok; cbn; repeat split; rewrite <- ?app_assoc; reflexivity.
Qed.

(** [restartServer] on an initialised client reuses it, sets the running
    flag from the restart outcome and keeps the restart count, so once the
    count has reached 5 the next connection closure does not restart;
    stopping and starting the server instead resets the count. *)
Theorem restartServer_keeps_budget (s : sqls) (c : nat) (l : list rpc)
  (exe_found start_ok : bool) (fresh fresh' : nat) (restart_ok stop_ok : bool) :
  _client s = Some c -> _maxRestartAttempts <= _restartCount s ->
  let (r, w') := restartServer exe_found start_ok fresh restart_ok (mkClient s l) in
  r = (if restart_ok then None else Some "restart failed")
  /\ _client (srv w') = Some c /\ _state (srv w') = restart_ok
  /\ _restartCount (srv w') = _restartCount s
  /\ rpcs w' = app l [ClientRestart c] /\ sent (srv w') = sent s
  /\ fst (closed (srv w')) = DoNotRestart
  /\ fst (closed (snd (startServer true true fresh' (snd (stopServer stop_ok s))))) = Restart.
Proof.
  intros Hc Hm. unfold restartServer. cbn [srv]. rewrite Hc.
  assert (Hb : Nat.leb 5 (_restartCount s) = true) by (apply Nat.leb_le; exact Hm).
  assert (Hrestart : fst (closed (snd (startServer true true fresh' (snd (stopServer stop_ok s))))) = Restart).
  { unfold stopServer. rewrite Hc. destruct (_state s) eqn:Es; cbn.
    all: unfold startServer; cbn; rewrite ?Es, ?Hc; cbn; reflexivity. }
  destruct restart_ok; cbn; rewrite ?Hc; repeat split; try exact Hrestart;
    unfold closed; cbn; cbn in Hb; rewrite Hb; reflexivity.
Qed.
Lemma executeServerCommand_not_running_witness :
  let w := mkClient (mkSqls (Some 4) false 0 [] [] []) [] in
  isServerRunning (srv w) = false
  /\ executeServerCommand "sqls.showDatabases" None (Ret (Str "db")) w
     = (Throw "Language server is not started",
        log w "[ExecuteServerCommand] Language server is not started").
Proof.
  cbv zeta. split; [reflexivity|].
  apply executeServerCommand_not_running. reflexivity.
Defined.

Lemma executeServerCommand_running_witness :
  let w := mkClient (mkSqls (Some 4) true 1 [] [] []) [] in
  let (r, w') := executeServerCommand "switchDatabase" (Some [Str "db"]) (Throw "boom") w in
  r = Throw "boom"
  /\ rpcs w' = [SendRequest 4 "workspace/executeCommand"
                  (Obj [("command", Str "switchDatabase"); ("arguments", Arr [Str "db"])])]
  /\ _client (srv w') = Some 4 /\ _state (srv w') = true
  /\ _restartCount (srv w') = 1 /\ sent (srv w') = []
  /\ shown (srv w') = ["Failed to execute server command switchDatabase: boom"].
Proof.
  exact (executeServerCommand_running "switchDatabase" (Some [Str "db"]) (Throw "boom")
           (mkClient (mkSqls (Some 4) true 1 [] [] []) []) 4 eq_refl eq_refl).
Defined.

Lemma server_lifecycle_witness :
  let s := mkSqls None false 3 [] [] [] in
  let (r1, s1) := startServer true true 7 s in
  let (r2, s2) := stopServer true s1 in
  r1 = None /\ isServerRunning s1 = true /\ _restartCount s1 = 0
  /\ rpcs (didChangeConfiguration (Obj []) (mkClient s1 []))
     = [SendNotification 7 "workspace/didChangeConfiguration" (Obj [])]
  /\ sent s2 = [ClientStart 7; ClientStop 7]
  /\ _client s2 = None /\ isServerRunning s2 = false
  /\ didChangeConfiguration (Obj []) (mkClient s2 []) = mkClient s2 []
  /\ fst (executeServerCommand "executeQuery" None (Ret Null) (mkClient s2 []))
     = Throw "Language server is not started".
Proof.
  exact (server_lifecycle (mkSqls None false 3 [] [] []) 7 true (Obj []) [] "executeQuery" None
           (Ret Null) eq_refl eq_refl).
Defined.

Lemma restartServer_keeps_budget_witness :
  let s := mkSqls (Some 2) false 5 [] [] [] in
  _maxRestartAttempts <= _restartCount s
  /\ let (r, w') := restartServer true true 9 true (mkClient s []) in
     r = None
     /\ _client (srv w') = Some 2 /\ _state (srv w') = true
     /\ _restartCount (srv w') = 5
     /\ rpcs w' = [ClientRestart 2] /\ sent (srv w') = []
     /\ fst (closed (srv w')) = DoNotRestart
     /\ fst (closed (snd (startServer true true 9 (snd (stopServer true s))))) = Restart.
Proof.
  cbv zeta. split; [cbv; lia|].
  apply (restartServer_keeps_budget (mkSqls (Some 2) false 5 [] [] []) 2 [] true true 9 9 true true
           eq_refl). cbv. lia.
Defined.
End LspClientProps.


Section MiddlewareProps.
Import Supervisor Panel LspClient.

(** The middleware of [executeQuery], when the command succeeds, returns
    the result unchanged, sends no further request, and displays loading
    then the normalised result of [parseResultSmart]. *)
Theorem lsp_executeQuery_handled (JSON_parse : string -> option value)
  (args : option (list value)) (result : value) (server_reply : outcome) (w : client) (p : panel) :
  let '(o, w', p') := executeCommand JSON_parse "executeQuery" args (Ret result) server_reply w p in
  o = Ret result /\ rpcs w' = rpcs w
  /\ exists q, ResultParser.parseResultSmart JSON_parse result = Ret q
     /\ p' = post (post p (DisplayLoading "Executing query...")) (DisplayResults q).
Proof.
  destruct (ResultParser_total JSON_parse result) as [q Hq].
  unfold executeCommand. cbn [String.eqb Ascii.eqb Bool.eqb andb]. rewrite Hq.
  split; [reflexivity|]. split; [|exists q; split; reflexivity].
  destruct args as [[|? ?]|]; reflexivity.
Qed.

(** The middleware of [executeQuery], when the command fails with an
    error other than an unknown command, rethrows it after displaying it,
    and sends no further request. *)
Theorem lsp_executeQuery_error (JSON_parse : string -> option value)
  (args : option (list value)) (e : string) (server_reply : outcome) (w : client) (p : panel) :
  isCommandNotFound e = false ->
  let '(o, w', p') := executeCommand JSON_parse "executeQuery" args (Throw e) server_reply w p in
  o = Throw e /\ rpcs w' = rpcs w
  /\ p' = post (post p (DisplayLoading "Executing query...")) (DisplayError e).
Proof.
  intros Hn. unfold executeCommand. cbn [String.eqb Ascii.eqb Bool.eqb andb]. rewrite Hn.
  split; [reflexivity|]. split; [|reflexivity].
  destruct args as [[|? ?]|]; reflexivity.
Qed.

(** The middleware of [executeQuery], when the command is unknown to the
    client, forwards it to the server as [workspace/executeCommand] if the
    server is running (else throws ["Language server not available"]), and
    the panel shows only the loading message. *)
Theorem lsp_executeQuery_forwarded (JSON_parse : string -> option value)
  (args : option (list value)) (e : string) (server_reply : outcome) (w : client) (p : panel) :
  isCommandNotFound e = true ->
  let '(o, w', p') := executeCommand JSON_parse "executeQuery" args (Throw e) server_reply w p in
  o = (if isServerRunning (srv w) then server_reply else Throw "Language server not available")
  /\ rpcs w' = app (rpcs w)
       (match _client (srv w) with
        | Some c =>
            if _state (srv w)
            then [SendRequest c "workspace/executeCommand"
                    (Obj [("command", Str "executeQuery");
                          ("arguments", Arr (match args with Some l => l | None => [] end))])]
            else []
        | None => []
        end)
  /\ p' = post p (DisplayLoading "Executing query...").
Proof.
  intros Hf. unfold executeCommand. cbn [String.eqb Ascii.eqb Bool.eqb andb]. rewrite Hf.
  unfold forwardCommandToServer, isServerRunning.
  destruct args as [[|? ?]|]; cbn;
    destruct (_client (srv w)); cbn; destruct (_state (srv w)); cbn;
    rewrite ?app_nil_r; repeat split.
Qed.
Lemma lsp_executeQuery_error_witness :
  isCommandNotFound "syntax error at line 1" = false
  /\ let '(o, w', p') := executeCommand (fun _ => None) "executeQuery" None
                           (Throw "syntax error at line 1") (Ret Null)
                           (mkClient (mkSqls (Some 1) true 0 [] [] []) []) (Some []) in
     o = Throw "syntax error at line 1" /\ rpcs w' = []
     /\ p' = Some [DisplayLoading "Executing query..."; DisplayError "syntax error at line 1"].
Proof.
  split; [reflexivity|].
  exact (lsp_executeQuery_error (fun _ => None) None "syntax error at line 1" (Ret Null)
           (mkClient (mkSqls (Some 1) true 0 [] [] []) []) (Some []) eq_refl).
Defined.

Lemma lsp_executeQuery_forwarded_witness :
  isCommandNotFound "command not found" = true
  /\ let '(o, w', p') := executeCommand (fun _ => None) "executeQuery" (Some [Str "select 1"])
                           (Throw "command not found") (Ret (Str "ok"))
                           (mkClient (mkSqls (Some 1) true 0 [] [] []) []) (Some []) in
     o = Ret (Str "ok")
     /\ rpcs w' = [SendRequest 1 "workspace/executeCommand"
                     (Obj [("command", Str "executeQuery"); ("arguments", Arr [Str "select 1"])])]
     /\ p' = Some [DisplayLoading "Executing query..."].
Proof.
  split; [reflexivity|].
  exact (lsp_executeQuery_forwarded (fun _ => None) (Some [Str "select 1"]) "command not found"
           (Ret (Str "ok")) (mkClient (mkSqls (Some 1) true 0 [] [] []) []) (Some []) eq_refl).
Defined.
End MiddlewareProps.

Section CommandMiddlewareProps.
Import Panel CommandMiddleware.

(** The [SqlsExecuteCommandMiddleware] never rejects when the command is
    given an argument array.  When the next handler throws, or for
    [executeQuery] the result parser throws, it resolves to [undefined]
    and the panel's last message is that error (after the loading message
    for [executeQuery]). *)
Theorem sqls_middleware_never_rejects (parse : value -> outcome)
  (next : string -> option (list value) -> outcome) (command : string) (l : list value) (p : panel) :
  let args := if String.eqb command "executeQuery" then Some (array_set l 1 (Str "-show-json"))
              else Some l in
  let p0 := if String.eqb command "executeQuery" then post p (DisplayLoading "Executing query...")
            else p in
  (exists v, fst (executeCommand parse next command (Some l) p) = Ret v)
  /\ (forall e, (next command args = Throw e
                 \/ (command = "executeQuery" /\ exists r, next command args = Ret r /\ parse r = Throw e)) ->
        executeCommand parse next command (Some l) p = (Ret Undefined, post p0 (DisplayError e))).
Proof.
  cbv zeta. split.
  - unfold executeCommand.
    destruct (String.eqb command "executeQuery");
      [destruct (next command (Some (array_set l 1 (Str "-show-json")))) as [r|]
      |destruct (next command (Some l)) as [r|]];
      try destruct (String.eqb command "executeQuery");
      try destruct (parse r); cbn; eauto.
  - intros e He. unfold executeCommand.
    destruct (String.eqb_spec command "executeQuery") as [->|Hne].
    + destruct He as [He|(_ & r & Hr & Hp)].
      * rewrite He. reflexivity.
      * rewrite Hr, Hp. reflexivity.
    + destruct He as [He|(Hc & _)]; [|contradiction].
      rewrite He. reflexivity.
Qed.

Lemma sqls_middleware_never_rejects_witness :
  executeCommand (fun _ => Throw "bad result") (fun _ _ => Ret (Str "ok")) "executeQuery"
    (Some [Str "select 1"]) (Some [])
  = (Ret Undefined, Some [DisplayLoading "Executing query..."; DisplayError "bad result"]).
Proof.
  apply (proj2 (sqls_middleware_never_rejects (fun _ => Throw "bad result")
                  (fun _ _ => Ret (Str "ok")) "executeQuery" [Str "select 1"] (Some []))).
  right. split; [reflexivity|]. exists (Str "ok"). split; reflexivity.
Defined.
End CommandMiddlewareProps.


Section CsvProps.
Import Text AsciiTable CsvExport CsvSpec.

Lemma append_nil_r (s : string) : (s ++ "")%string = s.
Proof. induction s as [|a s IH]; cbn; [reflexivity|]. rewrite IH. reflexivity. Qed.

Lemma includes_char (s : string) (c : ascii) : includes s (String c "") = has_char c s.
Proof.
  induction s as [|a s IH]; [reflexivity|]. cbn [includes has_char String.prefix].
  assert (P : String.prefix "" s = true) by (destruct s; reflexivity).
  rewrite IH. destruct (ascii_dec c a) as [<-|Hne]; rewrite ?P.
  - rewrite Ascii.eqb_refl. reflexivity.
  - replace (Ascii.eqb a c) with false by (symmetry; apply Ascii.eqb_neq; congruence).
    reflexivity.
Qed.

Lemma go_plain (s : string) : forall (a : string) (f : list string) (r : string),
  has_char comma s = false -> go (Plain a) f (s ++ r) = go (Plain (a ++ s)) f r.
Proof.
  induction s as [|c s IH]; intros a f r H; cbn [append].
  - rewrite append_nil_r. reflexivity.
  - cbn in H. apply orb_false_iff in H as [Hc Hs]. cbn [go]. rewrite Hc, IH by exact Hs.
    rewrite sapp_assoc. reflexivity.
Qed.

Lemma go_quoted (s : string) : forall (a : string) (f : list string) (r : string),
  go (Quoted a) f (double_quotes s ++ String dqc r) = go (QuoteSeen (a ++ s)) f r.
Proof.
  induction s as [|c s IH]; intros a f r; cbn [double_quotes append].
  - cbn. rewrite append_nil_r. reflexivity.
  - destruct (Ascii.eqb c "034"%char) eqn:E.
    + apply Ascii.eqb_eq in E. subst c. cbn. rewrite IH, sapp_assoc. reflexivity.
    + cbn [append go]. unfold dqc. rewrite E, IH, sapp_assoc. reflexivity.
Qed.

Lemma csv_cell_go (v : value) :
  exists q, closes q (join_text v) /\ forall f t, go Start f (csv_cell v ++ t) = go q f t.
Proof.
  assert (Hstart : closes Start "") by (intros f r; split; reflexivity).
  assert (J : match v with Undefined | Null => csv_cell v = "" /\ join_text v = ""
              | _ => join_text v = to_string v
                     /\ csv_cell v = (if includes (to_string v) "," || includes (to_string v) dq
                                     then dq ++ double_quotes (to_string v) ++ dq
                                     else to_string v) end)
    by (destruct v; split; reflexivity).
  destruct (match v with Undefined | Null => true | _ => false end) eqn:Hn.
  { exists Start. destruct v; try discriminate; destruct J as [-> ->]; split; auto. }
  assert (J' : join_text v = to_string v
               /\ csv_cell v = (if includes (to_string v) "," || includes (to_string v) dq
                               then dq ++ double_quotes (to_string v) ++ dq
                               else to_string v)) by (destruct v; try discriminate; exact J).
  clear J Hn. destruct J' as [-> ->]. set (s := to_string v). clearbody s.
  destruct (includes s "," || includes s dq) eqn:E.
  - exists (QuoteSeen s). split; [intros f r; split; reflexivity|].
    intros f t. unfold dq. cbn [append]. rewrite !sapp_assoc. cbn [append].
    cbn [go]. replace (Ascii.eqb "034"%char dqc) with true by reflexivity.
    exact (go_quoted s "" f t).
  - apply orb_false_iff in E as [E1 E2].
    change "," with (String comma "") in E1. rewrite includes_char in E1.
    unfold dq in E2. rewrite includes_char in E2.
    destruct s as [|c s'].
    + exists Start. split; [exact Hstart|]. reflexivity.
    + exists (Plain (String c s')). split; [intros f r; split; reflexivity|].
      intros f t. cbn in E1, E2. apply orb_false_iff in E1 as [Ec1 Es1].
      apply orb_false_iff in E2 as [Ec2 _]. cbn [append go].
      unfold dqc. rewrite Ec2. unfold comma in *. rewrite Ec1.
      rewrite go_plain by exact Es1. reflexivity.
Qed.

Lemma parse_cells (x : value) (xs : list value) : forall f,
  go Start f (String.concat "," (map csv_cell (x :: xs))) = app f (map join_text (x :: xs)).
Proof.
  revert x. induction xs as [|y xs IH]; intros x f.
  - destruct (csv_cell_go x) as [q [Hq Hgo]]. cbn [map String.concat].
    rewrite <- (append_nil_r (csv_cell x)), Hgo. exact (proj1 (Hq f EmptyString)).
  - destruct (csv_cell_go x) as [q [Hq Hgo]].
    change (String.concat "," (map csv_cell (x :: y :: xs)))
      with (csv_cell x ++ String comma (String.concat "," (map csv_cell (y :: xs)))).
    rewrite Hgo. destruct (Hq f (String.concat "," (map csv_cell (y :: xs)))) as [_ ->].
    rewrite IH, <- app_assoc. reflexivity.
Qed.

Lemma has_char_double (c : ascii) (s : string) :
  has_char c (double_quotes s) = has_char c s.
Proof.
  induction s as [|a s IH]; [reflexivity|]. cbn [double_quotes].
  destruct (Ascii.eqb a "034"%char); cbn [has_char]; rewrite IH;
    [rewrite orb_assoc, orb_diag|]; reflexivity.
Qed.

Lemma csv_cell_nl (v : value) : has_char nl (csv_cell v) = has_char nl (join_text v).
Proof.
  assert (H : forall s, has_char nl (if includes s "," || includes s dq
                                     then dq ++ double_quotes s ++ dq else s) = has_char nl s).
  { intros s. destruct (_ || _); [|reflexivity].
    rewrite !has_char_app, has_char_double. cbn. rewrite orb_false_r. reflexivity. }
  destruct v; try reflexivity; apply H.
Qed.

Lemma concat_no_char (c : ascii) (sep : string) (l : list string) :
  has_char c sep = false -> Forall (fun x => has_char c x = false) l ->
  has_char c (String.concat sep l) = false.
Proof.
  intros Hs H. induction H as [|x l Hx Hl IH]; [reflexivity|].
  destruct l as [|y l]; [exact Hx|].
  change (String.concat sep (x :: y :: l)) with (x ++ sep ++ String.concat sep (y :: l)).
  rewrite !has_char_app, Hx, Hs, IH. reflexivity.
Qed.

Lemma split_none (c : ascii) (s : string) : has_char c s = false -> split c s = [s].
Proof.
  induction s as [|a s IH]; intros H; [reflexivity|].
  cbn in H. apply orb_false_iff in H as [H1 H2]. cbn. rewrite H1, IH by exact H2. reflexivity.
Qed.

Lemma split_concat (l : list string) :
  l <> [] -> Forall (fun x => has_char nl x = false) l ->
  split nl (String.concat (String nl "") l) = l.
Proof.
  intros Hne H. induction H as [|x l Hx Hl IH]; [congruence|].
  destruct l as [|y l]; [apply split_none; exact Hx|].
  change (String.concat (String nl "") (x :: y :: l))
    with (x ++ String nl (String.concat (String nl "") (y :: l))).
  rewrite split_sep by exact Hx. rewrite IH by discriminate. reflexivity.
Qed.

Lemma map_opt_map {A B : Type} (f : A -> option B) (g : A -> B) (l : list A) :
  (forall x, In x l -> f x = Some (g x)) -> map_opt f l = Some (map g l).
Proof.
  induction l as [|x l IH]; intros H; [reflexivity|]. cbn.
  rewrite (H x (or_introl eq_refl)), IH by (intros y Hy; apply H; right; exact Hy).
  reflexivity.
Qed.

(** CSV export round trip: for columns with plain names and rows with no
    newline in any cell, [_exportToCsv] gives no data for no rows, and
    otherwise a text that an RFC 4180 reader parses back into the header
    names and the text of every cell, commas and quotes included. *)
Theorem exportToCsv_roundtrip (fs : list (string * value)) (names : list string)
  (rs : list value) :
  get (Obj fs) "columns" = Arr (map (fun n => Obj [("name", Str n)]) names) ->
  get (Obj fs) "rows" = Arr rs ->
  names <> [] ->
  Forall (fun n => has_char comma n || has_char dqc n || has_char nl n = false) names ->
  Forall (fun row => match row with Undefined | Null => False | _ => True end) rs ->
  Forall (fun row => Forall (fun n => has_char nl (join_text (read_prop row n)) = false) names) rs ->
  match rs with
  | [] => exportToCsv (Obj fs) = NoData
  | _ :: _ =>
      exists csv, exportToCsv (Obj fs) = CsvText csv
      /\ parse_csv csv = names :: map (fun row => map (fun n => join_text (read_prop row n)) names) rs
  end.
Proof.
  intros Hc Hr Hne Hn Hnn Hcell.
  unfold exportToCsv. rewrite Hr, Hc. cbn [truthy negb].
  destruct rs as [|r0 rs']; [reflexivity|].
  set (rs := r0 :: rs'). cbn [get String.eqb Ascii.eqb Bool.eqb andb List.length Z.of_nat].
  rewrite (map_opt_map col_name (fun col => get col "name")) by (intros x Hx;
    apply in_map_iff in Hx as [n [<- _]]; reflexivity).
  set (lines := map (fun row => String.concat "," (map csv_cell (map (read_prop row) names))) rs).
  assert (Hl : map_opt (row_line (map (fun n => Obj [("name", Str n)]) names)) rs = Some lines).
  { apply map_opt_map. intros row Hrow. unfold row_line.
    rewrite (map_opt_map _ (fun col => csv_cell (read_prop row (to_string (get col "name"))))).
    - rewrite !map_map. reflexivity.
    - intros col Hcol. apply in_map_iff in Hcol as [n [<- _]]. cbn [col_name].
      rewrite Forall_forall in Hnn. specialize (Hnn row Hrow).
      destruct row; try contradiction; reflexivity. }
  rewrite Hl. eexists. split; [reflexivity|].
  rewrite (map_map (fun n => Obj [("name", Str n)])).
  change (String nl "" ++ String.concat (String nl "") lines)
    with (String nl (String.concat (String nl "") lines)).
  cbn [get assoc String.eqb Ascii.eqb Bool.eqb andb].
  assert (Hh : String.concat "," (map (fun n => join_text (Str n)) names)
               = String.concat "," (map csv_cell (map Str names))).
  { f_equal. rewrite map_map. apply map_ext_in. intros n Hin.
    rewrite Forall_forall in Hn. specialize (Hn n Hin).
    apply orb_false_iff in Hn as [Hn _]. apply orb_false_iff in Hn as [Hn1 Hn2].
    cbn [csv_cell join_text to_string].
    change "," with (String comma ""). unfold dq. rewrite !includes_char, Hn1.
    unfold dqc in Hn2. rewrite Hn2. reflexivity. }
  assert (Hhnl : has_char nl (String.concat "," (map (fun n => join_text (Str n)) names)) = false).
  { apply concat_no_char; [reflexivity|]. apply Forall_forall. intros x Hx.
    apply in_map_iff in Hx as [n [<- Hin]]. rewrite Forall_forall in Hn. specialize (Hn n Hin).
    apply orb_false_iff in Hn as [_ Hn]. exact Hn. }
  unfold parse_csv. rewrite (map_map (fun x => Str x) join_text).
  rewrite split_sep by exact Hhnl.
  rewrite split_concat.
  - cbn [map]. f_equal.
    + unfold parse_line. rewrite Hh. destruct names as [|n ns]; [congruence|].
      change (map Str (n :: ns)) with (Str n :: map Str ns). rewrite parse_cells.
      cbn [app map join_text to_string]. rewrite map_map. cbn. rewrite map_id. reflexivity.
    + unfold lines. rewrite map_map. apply map_ext. intros row.
      unfold parse_line. destruct names as [|n ns]; [congruence|].
      change (map (read_prop row) (n :: ns)) with (read_prop row n :: map (read_prop row) ns).
      rewrite parse_cells. cbn [app map]. f_equal. rewrite map_map. reflexivity.
  - unfold lines. discriminate.
  - unfold lines. apply Forall_map. rewrite Forall_forall in Hcell |- *. intros row Hrow.
    apply concat_no_char; [reflexivity|]. apply Forall_map. apply Forall_map.
    specialize (Hcell row Hrow). rewrite Forall_forall in Hcell |- *. intros n Hin.
    rewrite csv_cell_nl. apply Hcell. exact Hin.
Qed.
Lemma exportToCsv_roundtrip_witness :
  let fs := [("columns", Arr [Obj [("name", Str "id")]; Obj [("name", Str "note")]]);
             ("rows", Arr [Obj [("id", Num 1); ("note", Str "a,b")];
                           Obj [("id", Num 2); ("note", Str ("say " ++ String dqc "hi"))]])] in
  exists csv, exportToCsv (Obj fs) = CsvText csv
  /\ parse_csv csv = [["id"; "note"]; ["1"; "a,b"]; ["2"; ("say " ++ String dqc "hi")]].
Proof.
  exact (exportToCsv_roundtrip
    [("columns", Arr [Obj [("name", Str "id")]; Obj [("name", Str "note")]]);
     ("rows", Arr [Obj [("id", Num 1); ("note", Str "a,b")];
                   Obj [("id", Num 2); ("note", Str ("say " ++ String dqc "hi"))]])]
    ["id"; "note"]
    [Obj [("id", Num 1); ("note", Str "a,b")]; Obj [("id", Num 2); ("note", Str ("say " ++ String dqc "hi"))]]
    eq_refl eq_refl ltac:(discriminate)
    ltac:(repeat constructor) ltac:(repeat constructor) ltac:(repeat constructor)).
Defined.
End CsvProps.


Section MessageHelperProps.
Import Interceptor MessageHelpers.

(** The filter built by [createMessageFilter] rejects a message exactly
    when one of the patterns matches it (a string contained in it, or a
    regular expression whose test succeeds). *)
Theorem createMessageFilter_rejects (ps : list pattern) (message : string) (t : MessageType) :
  createMessageFilter ps message t = false
  <-> Exists (fun p => match p with
                      | PString s => Text.includes message s = true
                      | PRegExp test => test message = true
                      end) ps.
Proof.
  induction ps as [|[s|test] ps IH]; cbn.
  - split; [discriminate|intros H; inversion H].
  - destruct (Text.includes message s) eqn:E.
    + split; [intros _; apply Exists_cons_hd; exact E|reflexivity].
    + rewrite IH. split; [intros H; apply Exists_cons_tl; exact H|].
      intros H. inversion H; subst; [congruence|assumption].
  - destruct (test message) eqn:E.
    + split; [intros _; apply Exists_cons_hd; exact E|reflexivity].
    + rewrite IH. split; [intros H; apply Exists_cons_tl; exact H|].
      intros H. inversion H; subst; [congruence|assumption].
Qed.

(** A filter built by [createMessageFilter] and installed in an active
    interceptor passes a notification to the original function, with its
    arguments unchanged, exactly when no pattern matches; a rejected call
    resolves to [undefined] and reaches no original function. *)
Theorem filter_in_interceptor (win0 : window) (ps : list pattern)
  (f : value -> MessageType -> bool) (lm : option bool) (lg : list string)
  (t : MessageType) (id : nat) (s : string) (rest : list value) :
  (forall s' t', f (Str s') t' = createMessageFilter ps s' t') ->
  slot win0 t = Native id ->
  let w := run (construct win0 None None lm lg) [OpSetFilter f; OpActivate] in
  let '(r, calls, _) := call_window w t (Str s :: rest) in
  if createMessageFilter ps s t
  then r = HostResult id (Str s :: rest) /\ calls = [(id, Str s :: rest)]
  else r = ResolvedUndefined /\ calls = [].
Proof.
  intros Hf Hslot. cbv zeta.
  assert (Hw : slot (win (run (construct win0 None None lm lg) [OpSetFilter f; OpActivate])) t
               = Wrapper 0 t (Native id)).
  { rewrite <- Hslot. destruct t; reflexivity. }
  unfold call_window. rewrite Hw. cbn [call_fn].
  unfold handleMessage. cbn [hd tl filter transformer opts icpt run fold_left run_op setFilter
                                set_opts activate construct isActive].
  rewrite Hf. destruct (createMessageFilter ps s t); cbn; split; reflexivity.
Qed.

Lemma get_substitution_plain (matched before after template : string) :
  AsciiTable.has_char "$"%char template = false ->
  get_substitution matched before after template = template.
Proof.
  induction template as [|c r IH]; intros H; [reflexivity|].
  cbn in H. apply orb_false_iff in H as [H1 H2]. cbn. rewrite H1, IH by exact H2. reflexivity.
Qed.

Lemma substring_prefix (a b : string) : substring 0 (String.length a) (a ++ b) = a.
Proof. induction a as [|c a IH]; cbn; [destruct b; reflexivity|]. rewrite IH. reflexivity. Qed.

Lemma substring_all (b : string) (n : nat) : String.length b <= n -> substring 0 n b = b.
Proof.
  revert n. induction b as [|c b IH]; intros [|n] H; cbn in *; try lia; try reflexivity.
  rewrite IH by lia. reflexivity.
Qed.

Lemma substring_after (a b : string) (n : nat) :
  substring (String.length a) n (a ++ b) = substring 0 n b.
Proof. induction a as [|c a IH]; [reflexivity|]. cbn. exact IH. Qed.


(** A string replacement of [createMessageTransformer] replaces the first
    occurrence of its [from] string by its [to] string (with no [$]
    pattern) and keeps the rest of the message. *)
Theorem createMessageTransformer_first (pre from post to : string) (t : MessageType) :
  String.index 0 from (pre ++ from ++ post) = Some (String.length pre) ->
  AsciiTable.has_char "$"%char to = false ->
  createMessageTransformer [mkReplacement (FromString from) to] (pre ++ from ++ post) t
    = pre ++ to ++ post.
Proof.
  intros Hi Hd. unfold createMessageTransformer. cbn [fold_left MessageHelpers.from MessageHelpers.to].
  unfold replace_string. rewrite Hi, substring_prefix, get_substitution_plain by exact Hd.
  f_equal. f_equal.
  rewrite <- slen_app, <- sapp_assoc, substring_after.
  apply substring_all. rewrite !slen_app. lia.
Qed.
Lemma filter_in_interceptor_witness :
  let ps := [PString "Request textDocument/hover failed"] in
  let f := fun v t => match v with Str s => createMessageFilter ps s t | _ => true end in
  let w := run (construct (mkWindow (Native 1) (Native 2) (Native 3)) None None None [])
              [OpSetFilter f; OpActivate] in
  (let '(r, calls, _) := call_window w Error [Str "Request textDocument/hover failed: timeout"] in
   r = ResolvedUndefined /\ calls = [])
  /\ (let '(r, calls, _) := call_window w Error [Str "connection refused"] in
      r = HostResult 1 [Str "connection refused"] /\ calls = [(1, [Str "connection refused"])]).
Proof.
  split.
  - exact (filter_in_interceptor (mkWindow (Native 1) (Native 2) (Native 3))
             [PString "Request textDocument/hover failed"]
             (fun v t => match v with
                         | Str s => createMessageFilter [PString "Request textDocument/hover failed"] s t
                         | _ => true end)
             None [] Error 1 "Request textDocument/hover failed: timeout" []
             (fun s' t' => eq_refl) eq_refl).
  - exact (filter_in_interceptor (mkWindow (Native 1) (Native 2) (Native 3))
             [PString "Request textDocument/hover failed"]
             (fun v t => match v with
                         | Str s => createMessageFilter [PString "Request textDocument/hover failed"] s t
                         | _ => true end)
             None [] Error 1 "connection refused" []
             (fun s' t' => eq_refl) eq_refl).
Defined.

Lemma createMessageTransformer_first_witness :
  createMessageTransformer [mkReplacement (FromString "sqls") "sqls-next"] "sqls: sqls failed" Info
    = "sqls-next: sqls failed".
Proof.
  exact (createMessageTransformer_first "" "sqls" ": sqls failed" "sqls-next" Info
           ltac:(vm_compute; reflexivity) ltac:(vm_compute; reflexivity)).
Defined.
End MessageHelperProps.


Section ConnectionSelectProps.
Import ConfigStore Supervisor LspClient ConnectionSelect.

(** Selecting an existing alias records it as the default, makes its
    config the current one, and sends that config alone to the server as a
    configuration change when the server is running, without changing the
    server's state. *)
Theorem selectConnectionConfigByAlias_spec (m : memento) (w : client) (a : string)
  (c : ConnectionConfig) :
  getConnectionConfig m a = Some (VConfig c) -> a <> "" ->
  let (m', w') := selectConnectionConfigByAlias a true m w in
  m' = selectConnectionConfig m a
  /\ getCurrentConnectionConfig m' = Some (VConfig c)
  /\ srv w' = srv w
  /\ rpcs w' = app (rpcs w)
       (match _client (srv w) with
        | Some cl =>
            if _state (srv w)
            then [SendNotification cl "workspace/didChangeConfiguration"
                    (Obj [("settings",
                           Obj [("sqls",
                                 Obj [("lowercaseKeywords", Bool false);
                                      ("connections",
                                       Arr [Obj [("alias", Str (alias c));
                                                 ("driver", Str (driver c));
                                                 ("dataSourceName", Str (dataSourceName c))]])])])])]
            else []
        | None => []
        end).
Proof.
  intros Hget Ha.
  assert (Hk : getConnectionConfig (selectConnectionConfig m a) a = Some (VConfig c)).
  { unfold getConnectionConfig, selectConnectionConfig. rewrite mget_mupdate_other; [exact Hget|].
    apply alias_key_neq. apply default_not_alias. }
  unfold selectConnectionConfigByAlias. rewrite Hk. cbn [stored_truthy negb].
  split; [reflexivity|]. split.
  - unfold getCurrentConnectionConfig, selectConnectionConfig.
    rewrite mget_mupdate_some. cbn [stored_truthy stored_text].
    assert (Ea : String.eqb a "" = false) by (apply String.eqb_neq; exact Ha).
    rewrite Ea. exact Hk.
  - unfold selectConnectionConfigByConnectionConfig, didChangeConfiguration, isServerRunning.
    destruct (_client (srv w)); destruct (_state (srv w)); cbn; rewrite ?app_nil_r; split; reflexivity.
Qed.
Lemma selectConnectionConfigByAlias_spec_witness :
  let m := run_store [] [OpUpdate (mkConfig "dev" "mysql" "root@/dev");
                         OpUpdate (mkConfig "prod" "postgres" "host=p")] in
  let w := mkClient (mkSqls (Some 1) true 0 [] [] []) [] in
  let (m', w') := selectConnectionConfigByAlias "prod" true m w in
  m' = selectConnectionConfig m "prod"
  /\ getCurrentConnectionConfig m' = Some (VConfig (mkConfig "prod" "postgres" "host=p"))
  /\ srv w' = srv w
  /\ rpcs w' = [SendNotification 1 "workspace/didChangeConfiguration"
                  (Obj [("settings",
                         Obj [("sqls",
                               Obj [("lowercaseKeywords", Bool false);
                                    ("connections",
                                     Arr [Obj [("alias", Str "prod");
                                               ("driver", Str "postgres");
                                               ("dataSourceName", Str "host=p")]])])])])].
Proof.
  exact (selectConnectionConfigByAlias_spec
           (run_store [] [OpUpdate (mkConfig "dev" "mysql" "root@/dev");
                          OpUpdate (mkConfig "prod" "postgres" "host=p")])
           (mkClient (mkSqls (Some 1) true 0 [] [] []) []) "prod"
           (mkConfig "prod" "postgres" "host=p")
           ltac:(vm_compute; reflexivity) ltac:(discriminate)).
Defined.
End ConnectionSelectProps.


Section AsciiShapeProps.
Import Text AsciiResultParser AsciiShape.

Lemma cell_value_ok (t : string) : cell_ok (cell_value t).
Proof.
  unfold cell_value, cell_ok.
  destruct (String.eqb_spec t "<nil>"); [left; reflexivity|].
  destruct (String.eqb_spec t "NULL"); [left; reflexivity|].
  destruct (String.eqb_spec t ""); [left; reflexivity|].
  right. exists t. repeat split; assumption.
Qed.

Lemma build_row_shape (cols vals : list string) :
  List.length vals = List.length cols ->
  exists fs, build_row cols vals = Obj fs
  /\ (forall k, In k cols -> k <> "__proto__" -> exists x, assoc k fs = Some x)
  /\ (forall k x, assoc k fs = Some x -> In k cols /\ cell_ok x).
Proof.
  intros Hlen. destruct (fold_obj_put_spec cols vals ([], true) Hlen) as (H1 & _ & H3 & _).
  eexists. split; [reflexivity|]. split.
  - intros k Hk Hp. apply H1; [exact Hp|left; exact Hk].
  - intros k x Hx. destruct (H3 k x Hx) as [(Hin & v & _ & ->)|Hn]; [|discriminate].
    split; [exact Hin|apply cell_value_ok].
Qed.

Lemma scan_rows_shape (cols lines : list string) :
  Forall (fun row => exists fs, row = Obj fs
            /\ (forall k, In k cols -> k <> "__proto__" -> exists x, assoc k fs = Some x)
            /\ (forall k x, assoc k fs = Some x -> In k cols /\ cell_ok x))
    (scan_rows cols lines).
Proof.
  induction lines as [|line lines IH]; cbn; [constructor|].
  destruct (startsWith line "+"); [exact IH|].
  destruct (negb (startsWith line "|")); [constructor|].
  destruct (Nat.eqb_spec (List.length (map trim (slice_1_m1 (split pipe line)))) (List.length cols))
    as [Hl|_]; [|exact IH].
  constructor; [|exact IH]. apply build_row_shape. exact Hl.
Qed.

(** [parseAsciiTableResult] either throws one of its three messages or
    returns a result with a non-empty list of non-empty column names,
    [rowsAffected] equal to the number of rows, and rows that are objects
    holding every column name other than [__proto__] and no other key,
    with cells null or a non-empty text other than [<nil>] and [NULL]. *)
Theorem parseAsciiTableResult_shape (asciiTable : string) :
  match parseAsciiTableResult asciiTable with
  | Throw msg =>
      msg = "Invalid ASCII table input"
      \/ msg = "Could not find header line in ASCII table"
      \/ msg = "No columns found in header"
  | Ret out =>
      exists names rows,
        out = Obj [("columns", Arr (map (fun name => Obj [("name", Str name)]) names));
                   ("rows", Arr rows);
                   ("rowsAffected", Num (Z.of_nat (List.length rows)))]
        /\ names <> [] /\ Forall (fun name => name <> "") names
        /\ Forall (fun row => exists fs, row = Obj fs
                     /\ (forall k, In k names -> k <> "__proto__" -> exists x, assoc k fs = Some x)
                     /\ (forall k x, assoc k fs = Some x -> In k names /\ cell_ok x)) rows
  end.
Proof.
  unfold parseAsciiTableResult.
  destruct (String.eqb asciiTable ""); [left; reflexivity|].
  destruct (find_header _) as [[headerLine after]|]; [|right; left; reflexivity].
  destruct (filter _ _) as [|n0 ns] eqn:Hf; [right; right; reflexivity|].
  exists (n0 :: ns), (scan_rows (n0 :: ns) after).
  split; [reflexivity|]. split; [discriminate|]. split.
  - apply Forall_forall. intros n Hn. rewrite <- Hf in Hn.
    apply filter_In in Hn as [_ Hn]. apply negb_true_iff, String.eqb_neq in Hn. exact Hn.
  - apply scan_rows_shape.
Qed.
End AsciiShapeProps.
